(** * DocRoute: the document classification pipeline

    A shallow embedding of [server/services/geminiService.js],
    [server/services/documentService.js], [server/config/config.js] and
    [server/middlewares/validationMiddleware.js], and the properties of
    the classification pipeline proved on it.

    Layout: the JavaScript values and built-ins the services use, the
    configuration, the two services, the middleware, then the theorems. *)

From Stdlib Require Import ZArith String Ascii List Bool Lia.
From Stdlib Require Import DecimalString.
From Stdlib Require Import Floats.PrimFloat Floats.SpecFloat Floats.FloatOps
  Floats.FloatAxioms.

(** Decimal literals such as [0.8] denote the nearest binary64 value, as
    they do in JavaScript. *)
Set Warnings "-inexact-float,-abstract-large-number,-register-all".
Import ListNotations.

Open Scope list_scope.
Open Scope string_scope.

(** ** Strings

    A JavaScript string is a sequence of 16-bit code units.  The model
    uses [string], a sequence of 8-bit units: the code units U+0000 to
    U+00FF.  Every string built-in below is exact on that range. *)

Module JSString.

Definition code (c : ascii) : N := N_of_ascii c.

(** [`] stands for the double quote inside the literals of this file. *)
Fixpoint bq (s : string) : string :=
  match s with
  | EmptyString => EmptyString
  | String c r =>
      String (if (code c =? 96)%N then ascii_of_N 34 else c) (bq r)
  end.

Definition LF : string := String (ascii_of_N 10) EmptyString.

(** WhiteSpace and LineTerminator code units: TAB, LF, VT, FF, CR,
    SP and NBSP. *)
Definition isWhiteSpace (c : ascii) : bool :=
  let n := code c in
  ((9 <=? n) && (n <=? 13) || (n =? 32) || (n =? 160))%N.

Fixpoint trimStart (s : string) : string :=
  match s with
  | EmptyString => EmptyString
  | String c r => if isWhiteSpace c then trimStart r else s
  end.

(** The string without its trailing white space; [None] when the
    whole string is white space. *)
Fixpoint trimEnd_aux (s : string) : option string :=
  match s with
  | EmptyString => None
  | String c r =>
      match trimEnd_aux r with
      | Some r' => Some (String c r')
      | None => if isWhiteSpace c then None else Some (String c EmptyString)
      end
  end.

Definition trimEnd (s : string) : string :=
  match trimEnd_aux s with Some t => t | None => EmptyString end.

(** [String.prototype.trim] *)
Definition trim (s : string) : string := trimEnd (trimStart s).

(** Lower case of one code unit: A-Z, and the Latin-1 capitals
    U+00C0-U+00DE without the multiplication sign U+00D7. *)
Definition lowerChar (c : ascii) : ascii :=
  let n := code c in
  if ((65 <=? n) && (n <=? 90)
      || (192 <=? n) && (n <=? 222) && negb (n =? 215))%N
  then ascii_of_N (n + 32) else c.

(** [String.prototype.toLowerCase] *)
Fixpoint toLowerCase (s : string) : string :=
  match s with
  | EmptyString => EmptyString
  | String c r => String (lowerChar c) (toLowerCase r)
  end.

(** [String.prototype.substring(0, n)] for [0 <= n]: the first [n]
    units, the whole string when it is shorter. *)
Fixpoint substring0 (n : nat) (s : string) : string :=
  match n, s with
  | S k, String c r => String c (substring0 k r)
  | _, _ => EmptyString
  end.

(** [Array.prototype.includes] on an array of strings, for a string. *)
Definition includes (l : list string) (s : string) : bool :=
  existsb (String.eqb s) l.

(** [Array.prototype.join] on an array of strings. *)
Fixpoint join (sep : string) (l : list string) : string :=
  match l with
  | [] => EmptyString
  | [s] => s
  | s :: r => s ++ sep ++ join sep r
  end.

Fixpoint startsWith (p s : string) : bool :=
  match p, s with
  | EmptyString, _ => true
  | String a p', String b s' => Ascii.eqb a b && startsWith p' s'
  | _, _ => false
  end.

Fixpoint repeat0 (n : nat) : string :=
  match n with O => EmptyString | S k => String "0" (repeat0 k) end.

End JSString.
Import JSString.

(** ** Numbers

    A JavaScript Number is an IEEE 754 binary64 value: [float]. *)

Module JSNumber.

Definition isDigit (c : ascii) : bool :=
  ((48 <=? code c) && (code c <=? 57))%N.

(** The leading DecimalDigits of a string, and what follows them. *)
Fixpoint spanDigits (s : string) : string * string :=
  match s with
  | EmptyString => (EmptyString, EmptyString)
  | String c r =>
      if isDigit c
      then let (d, t) := spanDigits r in (String c d, t)
      else (EmptyString, s)
  end.

Fixpoint digitsValue_from (acc : Z) (s : string) : Z :=
  match s with
  | EmptyString => acc
  | String c r => digitsValue_from (10 * acc + (Z.of_N (code c) - 48)) r
  end.

(** The mathematical value of a DecimalDigits string. *)
Definition digitsValue (s : string) : Z := digitsValue_from 0 s.

(** The decimal digits of a natural number. *)
Definition digitsString (n : Z) : string :=
  NilZero.string_of_uint (N.to_uint (Z.to_N n)).

(** The Number value for [m * 10^e] with [0 <= m]: the nearest
    binary64 value, ties to even; the sign is kept on zero. *)
Definition decimalToSF (neg : bool) (m e : Z) : spec_float :=
  if (m <=? 0)%Z then S754_zero neg
  else if (0 <=? e)%Z
       then binary_round prec emax neg (Z.to_pos (m * 10 ^ e)) 0
       else SFdiv prec emax
              (S754_finite neg (Z.to_pos m) 0)
              (S754_finite false (Z.to_pos (10 ^ (- e))) 0).

(** ExponentPart at the head of [s]: its value, and 0 when [s] does
    not begin with one. *)
Definition exponentPart (s : string) : Z :=
  match s with
  | String c r =>
      if ((code c =? 101) || (code c =? 69))%N
      then
        let '(neg, r1) :=
          match r with
          | String "-" t => (true, t)
          | String "+" t => (false, t)
          | _ => (false, r)
          end in
        let (d, _) := spanDigits r1 in
        if (d =? "")%string then 0%Z
        else if neg then (- digitsValue d)%Z else digitsValue d
      else 0%Z
  | EmptyString => 0%Z
  end.

(** [parseFloat] on a string: leading white space is skipped, then the
    longest prefix that is a StrDecimalLiteral is read; NaN when there
    is none. *)
Definition parseFloatString (s : string) : float :=
  let t := trimStart s in
  let '(neg, u) :=
    match t with
    | String "-" r => (true, r)
    | String "+" r => (false, r)
    | _ => (false, t)
    end in
  if startsWith "Infinity" u
  then (if neg then neg_infinity else infinity)
  else
    let (ip, r1) := spanDigits u in
    let '(fp, r2) :=
      match r1 with
      | String "." r => spanDigits r
      | _ => (EmptyString, r1)
      end in
    if ((ip =? "") && (fp =? ""))%string then nan
    else
      SF2Prim (decimalToSF neg (digitsValue (ip ++ fp))
                 (exponentPart r2 - Z.of_nat (String.length fp))).

(** *** Number::toString, radix 10 *)

Definition sameSF (a b : spec_float) : bool :=
  match SFcompare a b with Some Eq => true | _ => false end.

(** The least [j >= 1] with [den <= num * 10^j], for [0 < num < den]. *)
Fixpoint firstScale (fuel : nat) (j num den : Z) : Z :=
  match fuel with
  | O => j
  | S f => if (den <=? num * 10 ^ j)%Z then j
           else firstScale f (j + 1)%Z num den
  end.

(** [n] with [10^(n-1) <= num/den < 10^n]. *)
Definition decimalExponent (num den : Z) : Z :=
  if (den <=? num)%Z
  then Z.of_nat (String.length (digitsString (num / den)))
  else (1 - firstScale 400 1 num den)%Z.

(** The shortest digit string [s] and the exponent [n] such that
    [s * 10^(n - length s)] reads back as [x = num/den]; of two
    candidates of one length the closer to [x] is taken. *)
Fixpoint shortestDigits (fuel : nat) (k : Z) (x : spec_float)
         (num den n : Z) : string * Z :=
  let p := (n - k)%Z in
  let '(q, d) :=
    if (p <? 0)%Z then ((num * 10 ^ (- p))%Z, den)
    else (num, (den * 10 ^ p)%Z) in
  let lo := (q / d)%Z in
  let r := (q mod d)%Z in
  let hi := (lo + 1)%Z in
  let okLo := sameSF (decimalToSF false lo p) x in
  let okHi := sameSF (decimalToSF false hi p) x in
  let pick (s : Z) : string * Z :=
    if (s =? 10 ^ k)%Z then ("1", (n + 1)%Z) else (digitsString s, n) in
  match fuel with
  | O => pick lo
  | S f =>
      if okLo && okHi
      then (if (2 * r <? d)%Z then pick lo
            else if (d <? 2 * r)%Z then pick hi
            else if Z.even lo then pick lo else pick hi)
      else if okLo then pick lo
      else if okHi then pick hi
      else shortestDigits f (k + 1)%Z x num den n
  end.

Definition formatDigits (ds : string) (n : Z) : string :=
  let k := Z.of_nat (String.length ds) in
  if ((k <=? n) && (n <=? 21))%Z
  then ds ++ repeat0 (Z.to_nat (n - k))
  else if ((0 <? n) && (n <=? 21))%Z
  then substring 0 (Z.to_nat n) ds ++ "."
       ++ substring (Z.to_nat n) (Z.to_nat (k - n)) ds
  else if ((-6 <? n) && (n <=? 0))%Z
  then "0." ++ repeat0 (Z.to_nat (- n)) ++ ds
  else
    let e := (n - 1)%Z in
    let es := (if (e <? 0)%Z then "-" else "+") ++ digitsString (Z.abs e) in
    if (k =? 1)%Z then ds ++ "e" ++ es
    else substring 0 1 ds ++ "." ++ substring 1 (Z.to_nat (k - 1)) ds
         ++ "e" ++ es.

Definition NumberToString (x : float) : string :=
  match Prim2SF x with
  | S754_nan => "NaN"
  | S754_zero _ => "0"
  | S754_infinity false => "Infinity"
  | S754_infinity true => "-Infinity"
  | S754_finite s m e =>
      let num := (Z.pos m * 2 ^ Z.max e 0)%Z in
      let den := (2 ^ Z.max (- e) 0)%Z in
      let n := decimalExponent num den in
      let (ds, n') :=
        shortestDigits 17 1 (S754_finite false m e) num den n in
      (if s then "-" else "") ++ formatDigits ds n'
  end.

(** The Number of an integer. *)
Definition ofZ (z : Z) : float :=
  SF2Prim (binary_normalize prec emax z 0 false).

End JSNumber.
Import JSNumber.

(** ** Values, errors and completions *)

(** The values [JSON.parse] produces, and [undefined] for the read of a
    property an object does not have. *)
Inductive JSValue : Type :=
| JUndefined
| JNull
| JBool (b : bool)
| JNum (x : float)
| JStr (s : string)
| JArr (elems : list JSValue)
| JObj (props : list (string * JSValue)).

(** An object as its own properties, in insertion order. *)
Definition Obj : Type := list (string * JSValue).

(** What a [throw] carries: the repository's [ApiError] (status code and
    message), or an error that is not an instance of it. *)
Inductive JSError : Type :=
| ApiError (statusCode : Z) (message : string)
| TypeError (message : string)
| SyntaxError (message : string)
| Error (message : string).

(** [error instanceof ApiError] *)
Definition instanceofApiError (e : JSError) : bool :=
  match e with ApiError _ _ => true | _ => false end.

(** The outcome of evaluating an expression or a call. *)
Inductive Completion (A : Type) : Type :=
| Return (a : A)
| Throw (e : JSError).
Arguments Return {A} a.
Arguments Throw {A} e.

Definition bindC {A B : Type} (c : Completion A) (k : A -> Completion B)
  : Completion B :=
  match c with
  | Return a => k a
  | Throw e => Throw e
  end.

Declare Scope completion_scope.
Delimit Scope completion_scope with C.
Notation "x <- c ;; k" := (bindC c (fun x => k))
  (at level 61, c at next level, right associativity) : completion_scope.

Module JSValues.

Fixpoint getOwn (o : Obj) (k : string) : option JSValue :=
  match o with
  | [] => None
  | (k', v) :: r => if (k' =? k)%string then Some v else getOwn r k
  end.

Definition hasOwn (o : Obj) (k : string) : bool :=
  match getOwn o k with Some _ => true | None => false end.

(** [o.k] for a key that [Object.prototype] does not define: the own
    property, else [undefined]. *)
Definition Get (o : Obj) (k : string) : JSValue :=
  match getOwn o k with Some v => v | None => JUndefined end.

(** ToBoolean: [undefined], [null], [false], [0], [-0], [NaN] and the
    empty string are falsy. *)
Definition ToBoolean (v : JSValue) : bool :=
  match v with
  | JUndefined | JNull => false
  | JBool b => b
  | JNum x => negb (is_nan x || is_zero x)
  | JStr s => negb (s =? "")%string
  | JArr _ | JObj _ => true
  end.

(** [Array.isArray] *)
Definition isArray (v : JSValue) : bool :=
  match v with JArr _ => true | _ => false end.

(** [typeof v === 'string'] *)
Definition isString (v : JSValue) : bool :=
  match v with JStr _ => true | _ => false end.

(** ToString.  An array is joined with commas, [null] and [undefined]
    elements giving the empty string.  A plain object gives
    [[object Object]] through [Object.prototype.toString]; when it has
    an own property [toString], that property (a JSON value, never
    callable) hides the inherited method, [valueOf] returns the object
    itself, and the conversion throws. *)
Fixpoint ToString (v : JSValue) : Completion string :=
  match v with
  | JUndefined => Return "undefined"
  | JNull => Return "null"
  | JBool true => Return "true"
  | JBool false => Return "false"
  | JNum x => Return (NumberToString x)
  | JStr s => Return s
  | JObj props =>
      if hasOwn props "toString"
      then Throw (TypeError "Cannot convert object to primitive value")
      else Return "[object Object]"
  | JArr elems =>
      (fix joinElems (l : list JSValue) : Completion string :=
         match l with
         | [] => Return ""
         | e :: r =>
             let first :=
               match e with
               | JUndefined | JNull => Return ""
               | _ => ToString e
               end in
             match r with
             | [] => first
             | _ :: _ =>
                 bindC first (fun s =>
                 bindC (joinElems r) (fun t =>
                 Return (s ++ "," ++ t)))
             end
         end) elems
  end.

(** The global [parseFloat]: ToString, then the decimal prefix. *)
Definition parseFloat (v : JSValue) : Completion float :=
  bindC (ToString v) (fun s => Return (parseFloatString s)).

End JSValues.
Import JSValues.

(** ** server/config/config.js *)

Module config.

(** [config.documentTypes] *)
Module documentTypes.
Definition INVOICE := "invoice".
Definition PURCHASE_ORDER := "purchase_order".
Definition CONTRACT := "contract".
Definition RECEIPT := "receipt".
Definition PROPOSAL := "proposal".
Definition AGREEMENT := "agreement".
Definition OTHER := "other".
(** [Object.values(config.documentTypes)] *)
Definition values : list string :=
  [INVOICE; PURCHASE_ORDER; CONTRACT; RECEIPT; PROPOSAL; AGREEMENT; OTHER].
End documentTypes.

(** [config.departments] *)
Module departments.
Definition FINANCE := "finance".
Definition PROCUREMENT := "procurement".
Definition LEGAL := "legal".
Definition OPERATIONS := "operations".
Definition GENERAL := "general".
(** [Object.values(config.departments)] *)
Definition values : list string :=
  [FINANCE; PROCUREMENT; LEGAL; OPERATIONS; GENERAL].
End departments.

(** [config.confidenceLevels] *)
Module confidenceLevels.
Definition HIGH : float := 0.8%float.
Definition MEDIUM : float := 0.6%float.
Definition LOW : float := 0.4%float.
End confidenceLevels.

(** The settings read from the environment. *)
Record Env : Type := {
  maxFileSize : Z;
  allowedFileTypes : list string
}.

(** Their values when the environment sets none. *)
Definition defaults : Env := {|
  maxFileSize := 10 * 1024 * 1024;
  allowedFileTypes := ["application/pdf"; "text/plain"]
|}.

End config.

(** ** The world the services run in *)

(** The answer of an external collaborator: a value, or a failure that
    reaches the caller as a thrown error which is not an [ApiError]. *)
Inductive External (A : Type) : Type :=
| Replied (a : A)
| Failed (reason : string).
Arguments Replied {A} a.
Arguments Failed {A} reason.

(** The collaborators: the generative model (one prompt in, the text of
    its response out), [JSON.parse] on a text that begins with an opening
    brace ([None] is its SyntaxError, [Some o] the decoded object),
    [pdf-parse] (the text of a document) and the clock. *)
Record Host : Type := {
  generateContent : string -> External string;
  JSON_parse : string -> option Obj;
  pdfParse : string -> External string;
  toISOString_now : string
}.

(** The state the services touch: the files on disk (path and content),
    the paths among them that [fs.unlink] fails on (no permission on the
    directory, a file that is busy), and the prompts sent to the model,
    the latest first. *)
Record World : Type := {
  files : list (string * string);
  locked : list string;
  prompts : list string
}.

(** An [async] function: it runs in a world, returns or throws, and
    leaves a world. *)
Definition M (A : Type) : Type := World -> Completion A * World.

Definition ret {A : Type} (a : A) : M A := fun w => (Return a, w).

Definition throw {A : Type} (e : JSError) : M A := fun w => (Throw e, w).

Definition liftC {A : Type} (c : Completion A) : M A := fun w => (c, w).

Definition bind {A B : Type} (m : M A) (k : A -> M B) : M B :=
  fun w =>
    match m w with
    | (Return a, w') => k a w'
    | (Throw e, w') => (Throw e, w')
    end.

(** [try { m } catch (error) { h error }] *)
Definition tryCatch {A : Type} (m : M A) (h : JSError -> M A) : M A :=
  fun w =>
    match m w with
    | (Return a, w') => (Return a, w')
    | (Throw e, w') => h e w'
    end.

(** [try { m } finally { f }]: [f] runs on every exit of [m]; the
    outcome of [m] stands unless [f] throws. *)
Definition tryFinally {A : Type} (m : M A) (f : M unit) : M A :=
  fun w =>
    let (c, w') := m w in
    match f w' with
    | (Return _, w'') => (c, w'')
    | (Throw e, w'') => (Throw e, w'')
    end.

(** The handler every service method ends with:
    [if (error instanceof ApiError) throw error;
     throw new ApiError(500, message)]. *)
Definition rethrowOr500 {A : Type} (message : string) (error : JSError) : M A :=
  if instanceofApiError error then throw error
  else throw (ApiError 500 message).

Declare Scope M_scope.
Delimit Scope M_scope with M.
Notation "x <- c ;; k" := (bind c (fun x => k))
  (at level 61, c at next level, right associativity) : M_scope.
Notation "c ;;; k" := (bind c (fun _ => k))
  (at level 61, right associativity) : M_scope.

(** ** server/services/geminiService.js *)

Module geminiService.

(** [this.classificationPrompt] *)
Definition classificationPrompt : string := bq "
You are a professional document classification and routing assistant for back-office operations. 

Analyze the provided document content and classify it according to these document types:
- invoice: Bills for goods/services provided
- purchase_order: Orders for goods/services to be purchased
- contract: Legal agreements and contracts
- receipt: Payment confirmations and receipts
- proposal: Business proposals and quotes
- agreement: Various types of agreements
- other: Documents that don't fit the above categories

Route documents to these departments:
- finance: Invoices, receipts, financial statements, payment records, billing documents
- procurement: Purchase orders, vendor agreements, supplier contracts
- legal: Contracts, legal agreements, compliance documents, terms of service
- operations: Operational agreements, service contracts, facility management
- general: Documents that don't fit specific departments

IMPORTANT: You must ALWAYS return your analysis in the following JSON format, even if you cannot extract full text content:

{
    `documentType`: `classified_type`,
    `confidence`: 0.95,
    `department`: `assigned_department`, 
    `routingConfidence`: 0.90,
    `extractedData`: {
        `key_information`: `extracted values`
    },
    `reasoning`: `Brief explanation of classification logic`,
    `suggestedActions`: [`action1`, `action2`]
}

If you cannot determine the document type from the provided content, use `other` as documentType with lower confidence. If PDF text extraction is needed, mention it in the reasoning field. NEVER respond with plain text - always return valid JSON.

Confidence scores should be between 0 and 1. Be thorough in extracting relevant data like amounts, dates, vendor names, etc.

Document content:
".

(** The sanitized classification: the seven properties that
    [validateClassificationResult] leaves on the object it returns,
    with the types it gives them.  (The object keeps any further
    property of the candidate; no caller reads one.) *)
Record Classification : Type := {
  documentType : string;
  confidence : float;
  department : string;
  routingConfidence : float;
  extractedData : JSValue;
  reasoning : JSValue;
  suggestedActions : list JSValue
}.

(** [text.match(/\{[\s\S]*\}/)]: the match starts at the first opening
    brace and, the star being greedy, ends at the last closing brace
    after it; [None] is [null]. *)
Fixpoint fromFirst (c : ascii) (s : string) : option string :=
  match s with
  | EmptyString => None
  | String a r => if Ascii.eqb a c then Some s else fromFirst c r
  end.

Fixpoint uptoLast (c : ascii) (s : string) : option string :=
  match s with
  | EmptyString => None
  | String a r =>
      match uptoLast c r with
      | Some p => Some (String a p)
      | None => if Ascii.eqb a c then Some (String a EmptyString) else None
      end
  end.

Definition jsonMatch (text : string) : option string :=
  match fromFirst "{" text with
  | Some (String open rest) =>
      match uptoLast "}" rest with
      | Some body => Some (String open body)
      | None => None
      end
  | _ => None
  end.

(** The object literal of the [catch (parseError)] block. *)
Definition fallbackClassification : Obj :=
  [ ("documentType", JStr "other");
    ("confidence", JNum 0.3%float);
    ("department", JStr "general");
    ("routingConfidence", JNum 0.3%float);
    ("extractedData",
      JObj [("note", JStr "AI could not classify this document properly")]);
    ("reasoning",
      JStr "Classification failed due to non-JSON response from AI model");
    ("suggestedActions",
      JArr [JStr "Manual review required";
            JStr "Check document format and content"]) ].

(** [v.toLowerCase()], [v] being written [expr] in the source: the
    method exists on strings only; on any other value the property read
    gives [undefined] (or a JSON value, for an own property of an
    object), and calling it throws. *)
Definition callToLowerCase (expr : string) (v : JSValue) : Completion string :=
  match v with
  | JStr s => Return (toLowerCase s)
  | JUndefined =>
      Throw (TypeError
        "Cannot read properties of undefined (reading 'toLowerCase')")
  | JNull =>
      Throw (TypeError "Cannot read properties of null (reading 'toLowerCase')")
  | _ => Throw (TypeError (expr ++ ".toLowerCase is not a function"))
  end.

(** [validateConfidence(confidence)] *)
Definition validateConfidence (confidence : JSValue) : Completion float :=
  (numConfidence <- parseFloat confidence ;;
   if is_nan numConfidence
      || (numConfidence <? 0)%float
      || (1 <? numConfidence)%float
   then Return 0.5%float
   else Return numConfidence)%C.

(** [validateClassificationResult(result)] *)
Definition validateClassificationResult (result : Obj)
  : Completion Classification :=
  let validDocumentTypes := config.documentTypes.values in
  let validDepartments := config.departments.values in
  (documentType' <-
     (if negb (ToBoolean (Get result "documentType"))
      then Return config.documentTypes.OTHER
      else
        lower <- callToLowerCase "result.documentType" (Get result "documentType") ;;
        if negb (includes validDocumentTypes lower)
        then Return config.documentTypes.OTHER
        else callToLowerCase "result.documentType" (Get result "documentType")) ;;
   department' <-
     (if negb (ToBoolean (Get result "department"))
      then Return config.departments.GENERAL
      else
        lower <- callToLowerCase "result.department" (Get result "department") ;;
        if negb (includes validDepartments lower)
        then Return config.departments.GENERAL
        else callToLowerCase "result.department" (Get result "department")) ;;
   confidence' <- validateConfidence (Get result "confidence") ;;
   routingConfidence' <- validateConfidence (Get result "routingConfidence") ;;
   Return {|
     documentType := documentType';
     confidence := confidence';
     department := department';
     routingConfidence := routingConfidence';
     extractedData :=
       if ToBoolean (Get result "extractedData")
       then Get result "extractedData" else JObj [];
     reasoning :=
       if ToBoolean (Get result "reasoning")
       then Get result "reasoning" else JStr "Classification completed";
     suggestedActions :=
       match Get result "suggestedActions" with
       | JArr actions => actions
       | _ => []
       end
   |})%C.

Section WithHost.

Variable host : Host.

(** [await this.model.generateContent(prompt)], then the text of the
    response. *)
Definition generate (prompt : string) : M string :=
  fun w =>
    let w' := {| files := files w; locked := locked w;
                 prompts := prompt :: prompts w |} in
    match generateContent host prompt with
    | Replied text => (Return text, w')
    | Failed reason => (Throw (Error reason), w')
    end.

(** The inner [try]: the match, then [JSON.parse(jsonMatch[0])]. *)
Definition parseReply (text : string) : Completion Obj :=
  match jsonMatch text with
  | None => Throw (Error "No JSON found in response")
  | Some json =>
      match JSON_parse host json with
      | Some o => Return o
      | None => Throw (SyntaxError "Unexpected token in JSON")
      end
  end.

(** [classifyDocument(documentContent)] *)
Definition classifyDocument (documentContent : JSValue)
  : M Classification :=
  tryCatch
    (if negb (ToBoolean documentContent) || negb (isString documentContent)
     then throw (ApiError 400 "Document content is required and must be a string")
     else
       content <- liftC (ToString documentContent) ;;
       let prompt := classificationPrompt ++ content in
       text <- generate prompt ;;
       let classificationResult :=
         match parseReply text with
         | Return o => o
         | Throw parseError => fallbackClassification
         end in
       liftC (validateClassificationResult classificationResult))%M
    (rethrowOr500 "Failed to classify document with AI model").

End WithHost.

End geminiService.

(** ** Object literals used as tables

    [table[key]] on an object literal finds the literal's own property,
    and otherwise what the literal inherits from [Object.prototype]. *)

Module ObjectLiteral.

Definition objectPrototypeKeys : list string :=
  [ "constructor"; "hasOwnProperty"; "isPrototypeOf";
    "propertyIsEnumerable"; "toLocaleString"; "toString"; "valueOf";
    "__defineGetter__"; "__defineSetter__"; "__lookupGetter__";
    "__lookupSetter__"; "__proto__" ].

Inductive Looked : Type :=
| Own (value : string)
| Inherited (key : string)
| Absent.

Fixpoint ownEntry (table : list (string * string)) (key : string)
  : option string :=
  match table with
  | [] => None
  | (k, v) :: r => if (k =? key)%string then Some v else ownEntry r key
  end.

Definition lookup (table : list (string * string)) (key : string) : Looked :=
  match ownEntry table key with
  | Some v => Own v
  | None => if includes objectPrototypeKeys key then Inherited key else Absent
  end.

(** The text of an inherited property in a template literal: the
    built-in functions print as native code, [__proto__] is
    [Object.prototype] itself. *)
Definition inheritedToString (key : string) : string :=
  if (key =? "__proto__")%string then "[object Object]"
  else "function "
       ++ (if (key =? "constructor")%string then "Object" else key)
       ++ "() { [native code] }".

End ObjectLiteral.

(** ** server/services/documentService.js *)

Module documentService.
Import geminiService ObjectLiteral.

(** [this.supportedMimeTypes] *)
Definition supportedMimeTypes : list (string * string) :=
  [ ("application/pdf", "pdf"); ("text/plain", "txt") ].

(** The file object the upload middleware hands over. *)
Record File : Type := {
  path : string;
  size : Z;
  mimetype : string;
  originalname : string
}.

(** What [buildClassificationResult] returns: the metadata spread
    first, then the classification and the two derived fields. *)
Record ClassificationResult : Type := {
  metadata : Obj;
  classification : Classification;
  confidenceLevel : string;
  routingRecommendation : string
}.

(** [getConfidenceLevel(confidence)] *)
Definition getConfidenceLevel (confidence : float) : string :=
  if (config.confidenceLevels.HIGH <=? confidence)%float then "high"
  else if (config.confidenceLevels.MEDIUM <=? confidence)%float then "medium"
  else "low".

Definition departmentNames : list (string * string) :=
  [ ("finance", "Finance Department");
    ("procurement", "Procurement Department");
    ("legal", "Legal Department");
    ("operations", "Operations Department");
    ("general", "General Administration") ].

(** [getRoutingRecommendation(department, confidence)] *)
Definition getRoutingRecommendation (department : string)
           (confidence : float) : string :=
  let deptName :=
    match lookup departmentNames department with
    | Own name => if (name =? "")%string then "General Administration" else name
    | Inherited key => inheritedToString key
    | Absent => "General Administration"
    end in
  if (config.confidenceLevels.HIGH <=? confidence)%float
  then "Recommended for automatic routing to " ++ deptName
  else if (config.confidenceLevels.MEDIUM <=? confidence)%float
  then "Suggested routing to " ++ deptName ++ " - Manual review recommended"
  else "Low confidence routing to " ++ deptName ++ " - Manual review required".

(** [buildClassificationResult(classification, metadata)] *)
Definition buildClassificationResult (c : Classification) (meta : Obj)
  : ClassificationResult :=
  {| metadata := meta;
     classification := c;
     confidenceLevel := getConfidenceLevel (confidence c);
     routingRecommendation :=
       getRoutingRecommendation (department c) (routingConfidence c) |}.

(** The cap on the text sent for classification, and what is sent. *)
Definition maxTextLength : nat := 50000.

Definition truncationMarker : string := LF ++ "...(truncated)".

Definition textToClassify (text : string) : string :=
  if (maxTextLength <? String.length text)%nat
  then substring0 maxTextLength text ++ truncationMarker
  else text.

(** *** The file system *)

Fixpoint fileContent (fs : list (string * string)) (p : string)
  : option string :=
  match fs with
  | [] => None
  | (q, c) :: r => if (q =? p)%string then Some c else fileContent r p
  end.

Fixpoint removeFile (fs : list (string * string)) (p : string)
  : list (string * string) :=
  match fs with
  | [] => []
  | (q, c) :: r =>
      if (q =? p)%string then removeFile r p else (q, c) :: removeFile r p
  end.

(** [await fs.readFile(filePath)] *)
Definition readFile (filePath : string) : M string :=
  fun w =>
    match fileContent (files w) filePath with
    | Some c => (Return c, w)
    | None => (Throw (Error "ENOENT: no such file or directory"), w)
    end.

(** [await fs.access(filePath)] *)
Definition access (filePath : string) : M unit :=
  fun w =>
    match fileContent (files w) filePath with
    | Some _ => (Return tt, w)
    | None => (Throw (Error "ENOENT: no such file or directory"), w)
    end.

(** [await fs.unlink(filePath)]: it fails on a path that names no
    file, and on a file that the file system does not let go. *)
Definition unlink (filePath : string) : M unit :=
  fun w =>
    match fileContent (files w) filePath with
    | Some _ =>
        if includes (locked w) filePath
        then (Throw (Error "EPERM: operation not permitted, unlink"), w)
        else
          (Return tt,
           {| files := removeFile (files w) filePath;
              locked := locked w;
              prompts := prompts w |})
    | None => (Throw (Error "ENOENT: no such file or directory"), w)
    end.

(** [cleanupTempFile(filePath)]: a failure is logged, not thrown. *)
Definition cleanupTempFile (filePath : string) : M unit :=
  tryCatch (unlink filePath) (fun error => ret tt).

Section WithHost.

Variable host : Host.
Variable env : config.Env.

(** [extractTextFromPDF(filePath)] *)
Definition extractTextFromPDF (filePath : string) : M string :=
  tryCatch
    (dataBuffer <- readFile filePath ;;
     text <- (match pdfParse host dataBuffer with
              | Replied t => ret t
              | Failed reason => throw (Error reason)
              end) ;;
     if (text =? "")%string || (String.length (trim text) =? 0)%nat
     then throw (ApiError 400
            "PDF file appears to be empty or contains no extractable text")
     else ret text)%M
    (rethrowOr500 "Failed to extract text from PDF file").

(** [extractTextFromTXT(filePath)] *)
Definition extractTextFromTXT (filePath : string) : M string :=
  tryCatch
    (content <- readFile filePath ;;
     if (content =? "")%string || (String.length (trim content) =? 0)%nat
     then throw (ApiError 400 "Text file is empty")
     else ret content)%M
    (rethrowOr500 "Failed to read text file").

(** [extractTextFromFile(filePath, mimeType)] *)
Definition extractTextFromFile (filePath mimeType : string) : M string :=
  tryCatch
    (if (filePath =? "")%string
     then throw (ApiError 400 "File path is required")
     else
       tryCatch (access filePath)
                (fun _ => throw (ApiError 404 "File not found")) ;;;
       match lookup supportedMimeTypes mimeType with
       | Absent =>
           throw (ApiError 400 ("Unsupported file type: " ++ mimeType))
       | looked =>
           extractedText <-
             (match looked with
              | Own "pdf" => extractTextFromPDF filePath
              | Own "txt" => extractTextFromTXT filePath
              | _ => throw (ApiError 400 "Unsupported file format")
              end) ;;
           if (extractedText =? "")%string
              || (String.length (trim extractedText) =? 0)%nat
           then throw (ApiError 400
                  "No text content could be extracted from the file")
           else ret extractedText
       end)%M
    (rethrowOr500 "Failed to extract text from file").

(** [processDocument(file)]; [None] is a missing file object. *)
Definition processDocument (file : option File) : M ClassificationResult :=
  tryFinally
    (tryCatch
       (match file with
        | None => throw (ApiError 400 "No file provided")
        | Some file =>
            if (config.maxFileSize env <? size file)%Z
            then throw (ApiError 400
                   ("File size exceeds maximum limit of "
                    ++ NumberToString
                         (ofZ (config.maxFileSize env) / ofZ (1024 * 1024))
                    ++ "MB"))
            else if negb (includes (config.allowedFileTypes env)
                            (mimetype file))
            then throw (ApiError 400
                   ("File type " ++ mimetype file
                    ++ " is not supported. Allowed types: "
                    ++ join ", " (config.allowedFileTypes env)))
            else
              extractedText <-
                extractTextFromFile (path file) (mimetype file) ;;
              classification <-
                classifyDocument host (JStr (textToClassify extractedText)) ;;
              ret (buildClassificationResult classification
                     [ ("fileName", JStr (originalname file));
                       ("fileSize", JNum (ofZ (size file)));
                       ("mimeType", JStr (mimetype file));
                       ("uploadedAt", JStr (toISOString_now host)) ])
        end)%M
       (rethrowOr500 "Failed to process document"))
    (match file with
     | Some file =>
         if (path file =? "")%string then ret tt
         else cleanupTempFile (path file)
     | None => ret tt
     end).

(** [classifyText(textContent)] *)
Definition classifyText (textContent : JSValue) : M ClassificationResult :=
  tryCatch
    (if negb (ToBoolean textContent) || negb (isString textContent)
     then throw (ApiError 400 "Text content is required")
     else
       match textContent with
       | JStr text =>
           if (String.length (trim text) =? 0)%nat
           then throw (ApiError 400 "Text content cannot be empty")
           else
             classification <-
               classifyDocument host (JStr (textToClassify text)) ;;
             ret (buildClassificationResult classification
                    [ ("contentLength",
                        JNum (ofZ (Z.of_nat (String.length text))));
                      ("classifiedAt", JStr (toISOString_now host)) ])
       | _ => throw (TypeError "textContent.trim is not a function")
       end)%M
    (rethrowOr500 "Failed to classify text content").

End WithHost.

End documentService.

(** ** server/middlewares/validationMiddleware.js *)

Module validationMiddleware.

(** What a middleware does with a request: it passes it on, or it
    answers with a status and a message. *)
Inductive Outcome : Type :=
| Next
| Respond (status : Z) (message : string).

(** [validateTextContent], on the [content] of the request body. *)
Definition validateTextContent (content : JSValue) : Outcome :=
  if negb (ToBoolean content)
  then Respond 400 "Text content is required in the request body"
  else if negb (isString content)
  then Respond 400 "Text content must be a string"
  else
    match content with
    | JStr text =>
        if (String.length (trim text) =? 0)%nat
        then Respond 400 "Text content cannot be empty"
        else Next
    | _ => Respond 500 "Content validation failed"
    end.

End validationMiddleware.

(** * Vocabulary of the specification *)

(** [x] lies in the closed interval from 0 to 1. *)
Definition inUnitInterval (x : float) : bool :=
  ((0 <=? x) && (x <=? 1))%float.

(** The values on which the enum blocks of the sanitizer do not throw,
    and those [parseFloat] converts to a string. *)
Definition stringOrFalsy (v : JSValue) : bool :=
  negb (ToBoolean v) || isString v.

Definition convertible (v : JSValue) : bool :=
  match ToString v with Return _ => true | Throw _ => false end.

(** The two enum blocks of [validateClassificationResult] have one
    shape. *)
Definition enumField (expr : string) (valid : list string) (fallback : string)
           (v : JSValue) : Completion string :=
  if negb (ToBoolean v) then Return fallback
  else bindC (geminiService.callToLowerCase expr v) (fun lower =>
       if negb (includes valid lower) then Return fallback
       else geminiService.callToLowerCase expr v).

(** Comparison of two strings without regard to case. *)
Definition equalsIgnoreCase (a b : string) : bool :=
  (toLowerCase a =? toLowerCase b)%string.

Definition memberIgnoreCase (s : string) (l : list string) : bool :=
  existsb (equalsIgnoreCase s) l.

(** [c] occurs in [s]. *)
Fixpoint contains (c : ascii) (s : string) : bool :=
  match s with
  | EmptyString => false
  | String a r => Ascii.eqb a c || contains c r
  end.

(** The specification's reading of the search in the reply, "the first
    balanced JSON object substring": from an opening brace, the shortest
    span in which the braces balance; the first opening brace that has
    one is taken. *)
Fixpoint balancedSpan (depth : nat) (s : string) : option string :=
  match s with
  | EmptyString => None
  | String c r =>
      if Ascii.eqb c "{"
      then option_map (String c) (balancedSpan (S depth) r)
      else if Ascii.eqb c "}"
      then match depth with
           | O => None
           | S O => Some (String c EmptyString)
           | S d => option_map (String c) (balancedSpan d r)
           end
      else option_map (String c) (balancedSpan depth r)
  end.

Fixpoint firstBalancedObject (text : string) : option string :=
  match text with
  | EmptyString => None
  | String c r =>
      if Ascii.eqb c "{"
      then match balancedSpan 0 text with
           | Some o => Some o
           | None => firstBalancedObject r
           end
      else firstBalancedObject r
  end.

(** The fallback candidate as the specification lists it. *)
Definition fallbackCandidate : geminiService.Classification :=
  {| geminiService.documentType := "other";
     geminiService.confidence := 0.3%float;
     geminiService.department := "general";
     geminiService.routingConfidence := 0.3%float;
     geminiService.extractedData :=
       JObj [("note", JStr "AI could not classify this document properly")];
     geminiService.reasoning :=
       JStr "Classification failed due to non-JSON response from AI model";
     geminiService.suggestedActions :=
       [JStr "Manual review required";
        JStr "Check document format and content"] |}.

(** The error of a failed call to the model, as the gateway throws it:
    the specification's ClassificationUnavailable. *)
Definition ClassificationUnavailable : JSError :=
  ApiError 500 "Failed to classify document with AI model".

(** The world after one more prompt was sent to the model. *)
Definition logPrompt (prompt : string) (w : World) : World :=
  {| files := files w; locked := locked w; prompts := prompt :: prompts w |}.


(** ** Sample collaborators and inputs *)

(** A model that answers in prose. *)
Definition proseHost : Host :=
  {| generateContent := fun _ => Replied "I am not able to classify this text.";
     JSON_parse := fun _ => None;
     pdfParse := fun data => Replied data;
     toISOString_now := "2025-01-01T00:00:00.000Z" |}.

(** A model that cannot be reached. *)
Definition unreachableHost : Host :=
  {| generateContent := fun _ => Failed "fetch failed";
     JSON_parse := fun _ => None;
     pdfParse := fun data => Replied data;
     toISOString_now := "2025-01-01T00:00:00.000Z" |}.

(** A model whose reply decodes to a candidate with a number for its
    document type. *)
Definition numericTypeHost : Host :=
  {| generateContent := fun _ => Replied (bq "{`documentType`: 42}");
     JSON_parse := fun json =>
       if (json =? bq "{`documentType`: 42}")%string
       then Some [("documentType", JNum 42)] else None;
     pdfParse := fun data => Replied data;
     toISOString_now := "2025-01-01T00:00:00.000Z" |}.

(** A model that answers with a JSON object and a remark in braces; the
    decoder accepts the object and nothing longer. *)
Definition remarkHost : Host :=
  {| generateContent := fun _ =>
       Replied (bq "{`documentType`:`invoice`} (see {appendix})");
     JSON_parse := fun json =>
       if (json =? bq "{`documentType`:`invoice`}")%string
       then Some [("documentType", JStr "invoice")] else None;
     pdfParse := fun data => Replied data;
     toISOString_now := "2025-01-01T00:00:00.000Z" |}.

Definition sampleFile : documentService.File :=
  {| documentService.path := "public/temp/invoice-1.txt";
     documentService.size := 26;
     documentService.mimetype := "text/plain";
     documentService.originalname := "invoice.txt" |}.

Definition sampleWorld : World :=
  {| files := [("public/temp/invoice-1.txt", "Invoice #123, Amount: $500")];
     locked := [];
     prompts := [] |}.

(** The same files, on a file system that does not let the upload go. *)
Definition lockedWorld : World :=
  {| files := [("public/temp/invoice-1.txt", "Invoice #123, Amount: $500")];
     locked := ["public/temp/invoice-1.txt"];
     prompts := [] |}.

Fixpoint repeatChar (c : ascii) (n : nat) : string :=
  match n with
  | O => EmptyString
  | S k => String c (repeatChar c k)
  end.

(** A text one character longer than the cap. *)
Definition longText : string :=
  repeatChar "a" (S documentService.maxTextLength).

(** * Further code of the repository *)

(** ** The upload check of server/middlewares/validationMiddleware.js *)

Module uploadValidation.
Import documentService validationMiddleware.

(** [config.supportedExtensions] *)
Definition supportedExtensions : list string := [".pdf"; ".txt"].

Section WithPath.

(** [path.extname] of Node's path module, and the settings. *)
Variable extname : string -> string.
Variable env : config.Env.

(** [validateFileUpload], on the [file] of the request; [None] is a
    request without one. *)
Definition validateFileUpload (file : option File) : Outcome :=
  match file with
  | None => Respond 400 "Please upload a document file"
  | Some file =>
      if (config.maxFileSize env <? size file)%Z
      then Respond 400
             ("File size exceeds maximum limit of "
              ++ NumberToString
                   (ofZ (config.maxFileSize env) / ofZ (1024 * 1024))
              ++ "MB")
      else if negb (includes (config.allowedFileTypes env) (mimetype file))
      then Respond 400
             ("File type '" ++ mimetype file
              ++ "' is not supported. Allowed types: "
              ++ join ", " (config.allowedFileTypes env))
      else
        let fileExtension := toLowerCase (extname (originalname file)) in
        if negb (includes supportedExtensions fileExtension)
        then Respond 400
               ("File extension '" ++ fileExtension
                ++ "' is not supported. Allowed extensions: "
                ++ join ", " supportedExtensions)
        else if (size file =? 0)%Z
        then Respond 400 "Uploaded file is empty"
        else Next
  end.

End WithPath.

End uploadValidation.

(** ** The health check of server/services/geminiService.js *)

Module healthCheck.
Import geminiService.

(** [String.prototype.includes] *)
Fixpoint stringIncludes (needle hay : string) : bool :=
  startsWith needle hay
  || match hay with
     | EmptyString => false
     | String _ r => stringIncludes needle r
     end.

Definition connectionPrompt : string :=
  "Hello, please respond with 'Connection successful'".

(** [testConnection()] *)
Definition testConnection (host : Host) : M bool :=
  tryCatch
    (text <- generate host connectionPrompt ;;
     ret (stringIncludes "Connection successful" text))%M
    (fun error => ret false).

End healthCheck.

(** * Vocabulary of the further properties *)

(** The errors the gateway throws before it calls the model, and the
    services before they call the gateway. *)
Definition contentRequired : JSError :=
  ApiError 400 "Document content is required and must be a string".

Definition textRequired : JSError := ApiError 400 "Text content is required".

Definition textEmpty : JSError := ApiError 400 "Text content cannot be empty".

(** The message of [getRoutingRecommendation] for a display name. *)
Definition recommendation (name : string) (confidence : float) : string :=
  if (0.8 <=? confidence)%float
  then "Recommended for automatic routing to " ++ name
  else if (0.6 <=? confidence)%float
  then "Suggested routing to " ++ name ++ " - Manual review recommended"
  else "Low confidence routing to " ++ name ++ " - Manual review required".

(** A text is blank for the services when it is empty or white space. *)
Definition isBlank (text : string) : bool :=
  (text =? "")%string || (String.length (trim text) =? 0)%nat.

(** What [extractTextFromFile] comes to, case by case. *)
Definition extractionTable (host : Host) (filePath mimeType : string)
           (w : World) : Completion string :=
  if (filePath =? "")%string
  then Throw (ApiError 400 "File path is required")
  else
    match documentService.fileContent (files w) filePath with
    | None => Throw (ApiError 404 "File not found")
    | Some content =>
        if ("application/pdf" =? mimeType)%string
        then
          match pdfParse host content with
          | Replied text =>
              if isBlank text
              then Throw (ApiError 400
                     "PDF file appears to be empty or contains no extractable text")
              else Return text
          | Failed _ =>
              Throw (ApiError 500 "Failed to extract text from PDF file")
          end
        else if ("text/plain" =? mimeType)%string
        then
          if isBlank content
          then Throw (ApiError 400 "Text file is empty")
          else Return content
        else if includes ObjectLiteral.objectPrototypeKeys mimeType
        then Throw (ApiError 400 "Unsupported file format")
        else Throw (ApiError 400 ("Unsupported file type: " ++ mimeType))
    end.

(** The two checks [processDocument] makes on an upload before it reads
    it, as the error of the first that fails. *)
Definition uploadRejection (env : config.Env) (file : documentService.File)
  : option JSError :=
  if (config.maxFileSize env <? documentService.size file)%Z
  then Some (ApiError 400
               ("File size exceeds maximum limit of "
                ++ NumberToString
                     (ofZ (config.maxFileSize env) / ofZ (1024 * 1024))
                ++ "MB"))
  else if negb (includes (config.allowedFileTypes env)
                  (documentService.mimetype file))
  then Some (ApiError 400
               ("File type " ++ documentService.mimetype file
                ++ " is not supported. Allowed types: "
                ++ join ", " (config.allowedFileTypes env)))
  else None.

(** The metadata of the two flows. *)
Definition fileMetadata (host : Host) (file : documentService.File) : Obj :=
  [ ("fileName", JStr (documentService.originalname file));
    ("fileSize", JNum (ofZ (documentService.size file)));
    ("mimeType", JStr (documentService.mimetype file));
    ("uploadedAt", JStr (toISOString_now host)) ].

Definition textMetadata (host : Host) (text : string) : Obj :=
  [ ("contentLength", JNum (ofZ (Z.of_nat (String.length text))));
    ("classifiedAt", JStr (toISOString_now host)) ].

(** The world after the clean-up of an upload: the upload is gone
    unless the file system does not let it go. *)
Definition withoutUpload (file : documentService.File) (w : World) : World :=
  if (documentService.path file =? "")%string then w
  else if includes (locked w) (documentService.path file) then w
  else {| files := documentService.removeFile (files w)
                     (documentService.path file);
          locked := locked w;
          prompts := prompts w |}.

(** The display names of the departments. *)
Definition displayNames : list string :=
  map snd documentService.departmentNames.

(** The order of the confidence levels. *)
Definition levelRank (level : string) : nat :=
  if (level =? "high")%string then 2
  else if (level =? "medium")%string then 1
  else 0.

(** A file name of letters with one inner dot has the part from the dot
    as its [path.extname]; this function gives it for such names. *)
Fixpoint fromLastDot (name : string) : string :=
  match name with
  | EmptyString => EmptyString
  | String c r =>
      if contains "." r then fromLastDot r
      else if Ascii.eqb c "." then name else EmptyString
  end.

(** A host whose model returns a well-formed classification. *)
Definition invoiceHost : Host :=
  {| generateContent := fun _ => Replied (bq "{`documentType`:`Invoice`}");
     JSON_parse := fun json =>
       if (json =? bq "{`documentType`:`Invoice`}")%string
       then Some [ ("documentType", JStr "Invoice");
                   ("confidence", JNum 0.92);
                   ("department", JStr "finance");
                   ("routingConfidence", JNum 0.9) ]
       else None;
     pdfParse := fun data => Replied data;
     toISOString_now := "2025-01-01T00:00:00.000Z" |}.

(** * Properties *)

Import geminiService documentService ObjectLiteral.

(** ** Numbers in the unit interval *)

Lemma SFcompare_antisym (a b : spec_float) :
  SFcompare a b = option_map CompOpp (SFcompare b a).
Proof.
  destruct a as [sa | sa | | sa ma ea], b as [sb | sb | | sb mb eb];
    cbn [SFcompare option_map]; try reflexivity;
    try (destruct sa; reflexivity); try (destruct sb; reflexivity);
    try (destruct sa, sb; reflexivity).
  destruct sa, sb; cbn [CompOpp]; try reflexivity;
    rewrite (Z.compare_antisym ea eb);
    destruct (ea ?= eb)%Z; cbn [CompOpp]; try reflexivity;
    pose proof (Pos.compare_cont_antisym mb ma Eq) as H;
    cbn [CompOpp] in H; rewrite <- H; try reflexivity.
Qed.

Lemma SFcompare_refl (a : spec_float) :
  SFcompare a a = match a with S754_nan => None | _ => Some Eq end.
Proof.
  destruct a as [s | s | | s m e]; cbn [SFcompare];
    try (destruct s; reflexivity); try reflexivity.
  rewrite Z.compare_refl.
  assert (H : Pos.compare_cont Eq m m = Eq) by apply Pos.compare_refl.
  rewrite H. destruct s; reflexivity.
Qed.

Lemma Prim2SF_zero : Prim2SF 0%float = S754_zero false.
Proof. vm_compute. reflexivity. Qed.

Lemma Prim2SF_one_finite :
  exists m e, Prim2SF 1%float = S754_finite false m e.
Proof. eexists. eexists. vm_compute. reflexivity. Qed.

(** A Number is outside the unit interval exactly when it is NaN, below
    0 or above 1: the test of [validateConfidence]. *)
Lemma inUnitInterval_spec (x : float) :
  inUnitInterval x = negb (is_nan x || (x <? 0)%float || (1 <? x)%float).
Proof.
  unfold inUnitInterval, is_nan.
  rewrite !leb_spec, !ltb_spec, eqb_spec, Prim2SF_zero.
  destruct Prim2SF_one_finite as (m1 & e1 & ->).
  unfold SFleb, SFltb, SFeqb.
  rewrite SFcompare_refl.
  rewrite (SFcompare_antisym (S754_finite false m1 e1) (Prim2SF x)).
  rewrite (SFcompare_antisym (S754_zero false) (Prim2SF x)).
  destruct (Prim2SF x) as [s | s | | s m e].
  - reflexivity.
  - destruct s; reflexivity.
  - reflexivity.
  - destruct s; cbn [SFcompare option_map CompOpp]; [reflexivity|].
    destruct (match (e ?= e1)%Z with
              | Eq => Pos.compare_cont Eq m m1
              | Lt => Lt
              | Gt => Gt
              end); reflexivity.
Qed.

Lemma inUnitInterval_false_iff (x : float) :
  inUnitInterval x = false
  <-> is_nan x = true \/ (x <? 0)%float = true \/ (1 <? x)%float = true.
Proof.
  rewrite inUnitInterval_spec, negb_false_iff, !orb_true_iff. tauto.
Qed.






(** ** Strings *)

Lemma string_eqb_empty (s : string) : (s =? "")%string = false <-> s <> "".
Proof.
  split.
  - intros H ->. discriminate.
  - intros H. destruct s; [contradiction | reflexivity].
Qed.

Lemma length_append (a b : string) :
  String.length (a ++ b) = String.length a + String.length b.
Proof. induction a as [| c a IH]; cbn; [reflexivity | now rewrite IH]. Qed.

Lemma append_assoc (a b c : string) : (a ++ b) ++ c = a ++ (b ++ c).
Proof. induction a as [| x a IH]; cbn; [reflexivity | now rewrite IH]. Qed.

Lemma length_substring0 (n : nat) (s : string) :
  n <= String.length s -> String.length (substring0 n s) = n.
Proof.
  revert s. induction n as [| n IH]; intros s H.
  - reflexivity.
  - destruct s as [| c r]; cbn in *; [lia |]. rewrite IH; lia.
Qed.

(** ** The sanitizer *)

Lemma validateClassificationResult_unfold (result : Obj) :
  validateClassificationResult result
  = bindC (enumField "result.documentType" config.documentTypes.values
             config.documentTypes.OTHER (Get result "documentType")) (fun dt =>
    bindC (enumField "result.department" config.departments.values
             config.departments.GENERAL (Get result "department")) (fun dp =>
    bindC (validateConfidence (Get result "confidence")) (fun x =>
    bindC (validateConfidence (Get result "routingConfidence")) (fun y =>
    Return {|
      documentType := dt;
      confidence := x;
      department := dp;
      routingConfidence := y;
      extractedData :=
        if ToBoolean (Get result "extractedData")
        then Get result "extractedData" else JObj [];
      reasoning :=
        if ToBoolean (Get result "reasoning")
        then Get result "reasoning" else JStr "Classification completed";
      suggestedActions :=
        match Get result "suggestedActions" with
        | JArr actions => actions
        | _ => []
        end |})))).
Proof. reflexivity. Qed.

Lemma enumField_string (expr : string) (valid : list string)
      (fallback s : string) :
  includes valid "" = false ->
  enumField expr valid fallback (JStr s)
  = Return (if includes valid (toLowerCase s) then toLowerCase s else fallback).
Proof.
  intros Hempty. unfold enumField. cbn [ToBoolean callToLowerCase bindC].
  destruct s as [| c r].
  - cbn [String.eqb negb toLowerCase]. rewrite Hempty. reflexivity.
  - cbn [String.eqb negb].
    destruct (includes valid (toLowerCase (String c r))); reflexivity.
Qed.

Lemma enumField_falsy (expr : string) (valid : list string)
      (fallback : string) (v : JSValue) :
  ToBoolean v = false -> enumField expr valid fallback v = Return fallback.
Proof. intros H. unfold enumField. rewrite H. reflexivity. Qed.

(** A truthy value that is not a string has no [toLowerCase]. *)
Lemma enumField_not_string (expr : string) (valid : list string)
      (fallback : string) (v : JSValue) :
  ToBoolean v = true -> isString v = false ->
  exists message, enumField expr valid fallback v = Throw (TypeError message).
Proof.
  intros Ht Hs. unfold enumField. rewrite Ht. cbn [negb].
  destruct v; try discriminate; cbn [callToLowerCase bindC]; eauto.
Qed.

Lemma validateConfidence_spec (v : JSValue) (x : float) :
  parseFloat v = Return x ->
  validateConfidence v = Return (if inUnitInterval x then x else 0.5%float).
Proof.
  intros H. unfold validateConfidence. rewrite H. cbn [bindC].
  rewrite inUnitInterval_spec.
  destruct (is_nan x || (x <? 0)%float || (1 <? x)%float); reflexivity.
Qed.

Lemma validateConfidence_throw (v : JSValue) (e : JSError) :
  parseFloat v = Throw e -> validateConfidence v = Throw e.
Proof. intros H. unfold validateConfidence. rewrite H. reflexivity. Qed.

(** What a returning run of the sanitizer went through. *)
Lemma validateClassificationResult_inv (result : Obj) (c : Classification) :
  validateClassificationResult result = Return c ->
  exists x y,
    enumField "result.documentType" config.documentTypes.values
      config.documentTypes.OTHER (Get result "documentType")
    = Return (documentType c)
    /\ enumField "result.department" config.departments.values
         config.departments.GENERAL (Get result "department")
       = Return (department c)
    /\ parseFloat (Get result "confidence") = Return x
    /\ parseFloat (Get result "routingConfidence") = Return y
    /\ confidence c = (if inUnitInterval x then x else 0.5%float)
    /\ routingConfidence c = (if inUnitInterval y then y else 0.5%float)
    /\ extractedData c
       = (if ToBoolean (Get result "extractedData")
          then Get result "extractedData" else JObj [])
    /\ reasoning c
       = (if ToBoolean (Get result "reasoning")
          then Get result "reasoning" else JStr "Classification completed")
    /\ suggestedActions c
       = match Get result "suggestedActions" with
         | JArr actions => actions
         | _ => []
         end.
Proof.
  rewrite validateClassificationResult_unfold.
  destruct (enumField _ _ _ (Get result "documentType")) as [dt | e];
    [| discriminate].
  destruct (enumField _ _ _ (Get result "department")) as [dp | e];
    [| discriminate].
  cbn [bindC].
  destruct (parseFloat (Get result "confidence")) as [x | e] eqn:Hx.
  2: { rewrite (validateConfidence_throw _ _ Hx). discriminate. }
  destruct (parseFloat (Get result "routingConfidence")) as [y | e] eqn:Hy.
  2: { rewrite (validateConfidence_spec _ _ Hx), (validateConfidence_throw _ _ Hy).
       discriminate. }
  rewrite (validateConfidence_spec _ _ Hx), (validateConfidence_spec _ _ Hy).
  cbn [bindC]. intros [= <-]. exists x, y.
  cbn [documentType confidence department routingConfidence extractedData
       reasoning suggestedActions].
  repeat split; reflexivity.
Qed.

(** Induction on values, with the elements of an array. *)
Lemma JSValue_array_ind (P : JSValue -> Prop) :
  P JUndefined -> P JNull -> (forall b, P (JBool b)) ->
  (forall x, P (JNum x)) -> (forall s, P (JStr s)) ->
  (forall elems, Forall P elems -> P (JArr elems)) ->
  (forall props, P (JObj props)) ->
  forall v, P v.
Proof.
  intros Hu Hn Hb Hx Hs Ha Ho.
  fix IH 1.
  intros [| | b | x | s | elems | props];
    [exact Hu | exact Hn | apply Hb | apply Hx | apply Hs | | apply Ho].
  apply Ha.
  refine ((fix go (l : list JSValue) : Forall P l :=
             match l with
             | [] => Forall_nil P
             | a :: r => Forall_cons a (IH a) (go r)
             end) elems).
Qed.

(** The only error of ToString is the TypeError of an object that hides
    [toString]. *)
Lemma ToString_throws_TypeError (v : JSValue) (e : JSError) :
  ToString v = Throw e ->
  e = TypeError "Cannot convert object to primitive value".
Proof.
  revert e. induction v as [| | b | x | s | elems IH | props]
    using JSValue_array_ind; intros e; cbn [ToString]; try discriminate.
  - destruct b; discriminate.
  - induction IH as [| a r Ha Hr IHr]; [discriminate|].
    assert (Hfirst : forall e',
               match a with
               | JUndefined | JNull => Return ""
               | _ => ToString a
               end = Throw e' ->
               e' = TypeError "Cannot convert object to primitive value").
    { intros e'. destruct a; try discriminate; apply Ha. }
    destruct r as [| b r'].
    + apply Hfirst.
    + destruct (match a with
                | JUndefined | JNull => Return ""
                | _ => ToString a
                end) as [sa | ea]; cbn [bindC].
      * match goal with
        | |- context [bindC ?j _] => destruct j as [t | et]
        end; cbn [bindC]; [discriminate|].
        intros [= <-]. apply IHr. reflexivity.
      * intros [= <-]. apply Hfirst. reflexivity.
  - destruct (hasOwn props "toString"); [|discriminate].
    intros [= <-]. reflexivity.
Qed.

(** The sanitizer throws only errors that are not [ApiError]s. *)
Lemma validateClassificationResult_throws_TypeError (result : Obj)
      (e : JSError) :
  validateClassificationResult result = Throw e ->
  instanceofApiError e = false.
Proof.
  rewrite validateClassificationResult_unfold.
  assert (Henum : forall expr valid fb v e',
             enumField expr valid fb v = Throw e' ->
             instanceofApiError e' = false).
  { intros expr valid fb v e'. unfold enumField.
    destruct (negb (ToBoolean v)); [discriminate|].
    destruct v; cbn [callToLowerCase bindC];
      try (intros [= <-]; reflexivity).
    destruct (negb (includes valid (toLowerCase s))); discriminate. }
  assert (Hconf : forall v e',
             validateConfidence v = Throw e' ->
             instanceofApiError e' = false).
  { intros v e'. unfold validateConfidence, parseFloat.
    destruct (ToString v) as [s | e0] eqn:Hv; cbn [bindC].
    - destruct (is_nan _ || _ || _); discriminate.
    - intros [= <-]. rewrite (ToString_throws_TypeError v e0 Hv). reflexivity. }
  destruct (enumField _ _ _ (Get result "documentType")) as [dt | e1] eqn:H1;
    cbn [bindC]; [| intros [= <-]; eapply Henum; eassumption].
  destruct (enumField _ _ _ (Get result "department")) as [dp | e2] eqn:H2;
    cbn [bindC]; [| intros [= <-]; eapply Henum; eassumption].
  destruct (validateConfidence (Get result "confidence")) as [x | e3] eqn:H3;
    cbn [bindC]; [| intros [= <-]; eapply Hconf; eassumption].
  destruct (validateConfidence (Get result "routingConfidence")) as [y | e4] eqn:H4;
    cbn [bindC]; [discriminate | intros [= <-]; eapply Hconf; eassumption].
Qed.

Lemma includes_toLowerCase (l : list string) (s : string) :
  Forall (fun w => toLowerCase w = w) l ->
  includes l (toLowerCase s) = memberIgnoreCase s l.
Proof.
  intros H. unfold includes, memberIgnoreCase, equalsIgnoreCase.
  induction H as [| w l Hw Hl IH]; cbn [existsb]; [reflexivity|].
  rewrite Hw, IH. reflexivity.
Qed.

Lemma documentTypes_lower_case :
  Forall (fun w => toLowerCase w = w) config.documentTypes.values.
Proof. repeat constructor. Qed.

Lemma departments_lower_case :
  Forall (fun w => toLowerCase w = w) config.departments.values.
Proof. repeat constructor. Qed.

(** The sanitizer returns exactly on the candidates whose enum fields are
    strings or falsy and whose confidence fields convert to a string. *)
Lemma validateClassificationResult_returns_iff (result : Obj) :
  (exists c, validateClassificationResult result = Return c)
  <-> stringOrFalsy (Get result "documentType") = true
      /\ stringOrFalsy (Get result "department") = true
      /\ convertible (Get result "confidence") = true
      /\ convertible (Get result "routingConfidence") = true.
Proof.
  assert (Henum : forall expr valid fb v,
             (exists r, enumField expr valid fb v = Return r)
             <-> stringOrFalsy v = true).
  { intros expr valid fb v. unfold stringOrFalsy, enumField.
    destruct (ToBoolean v) eqn:Ht; cbn [negb orb].
    - destruct v; cbn [callToLowerCase bindC isString];
        try (split; [intros [r [=]] | discriminate]).
      split; [reflexivity | intros _].
      destruct (negb (includes valid (toLowerCase s))); eauto.
    - split; [reflexivity | eauto]. }
  assert (Hconf : forall v,
             (exists r, validateConfidence v = Return r)
             <-> convertible v = true).
  { intros v. unfold convertible, validateConfidence, parseFloat.
    destruct (ToString v) as [s | e]; cbn [bindC].
    - split; [reflexivity | intros _].
      destruct (is_nan _ || _ || _); eauto.
    - split; [intros [r [=]] | discriminate]. }
  rewrite validateClassificationResult_unfold.
  rewrite <- (Henum "result.documentType" config.documentTypes.values
                config.documentTypes.OTHER),
          <- (Henum "result.department" config.departments.values
                config.departments.GENERAL),
          <- !Hconf.
  destruct (enumField _ _ _ (Get result "documentType")) as [dt | e1];
    cbn [bindC].
  2: { split; [intros [c [=]] | intros [[r [=]] _]]. }
  destruct (enumField _ _ _ (Get result "department")) as [dp | e2];
    cbn [bindC].
  2: { split; [intros [c [=]] | intros (_ & [r [=]] & _)]. }
  destruct (validateConfidence (Get result "confidence")) as [x | e3];
    cbn [bindC].
  2: { split; [intros [c [=]] | intros (_ & _ & [r [=]] & _)]. }
  destruct (validateConfidence (Get result "routingConfidence")) as [y | e4];
    cbn [bindC].
  2: { split; [intros [c [=]] | intros (_ & _ & _ & [r [=]])]. }
  split; eauto 10.
Qed.

(** Every candidate with a truthy [documentType] that is no string makes
    the sanitizer throw. *)
Lemma validateClassificationResult_throws_on_non_string (result : Obj) :
  ToBoolean (Get result "documentType") = true ->
  isString (Get result "documentType") = false ->
  exists message,
    validateClassificationResult result = Throw (TypeError message).
Proof.
  intros Htruthy Hstring. rewrite validateClassificationResult_unfold.
  destruct (enumField_not_string "result.documentType"
              config.documentTypes.values config.documentTypes.OTHER
              _ Htruthy Hstring) as [message ->].
  exists message. reflexivity.
Qed.

(** C1 (refuted on the code): the sanitizer is not total.  A candidate
    whose [documentType] is the number 42, with every other field as the
    prompt asks for it, makes [validateClassificationResult] throw a
    TypeError: 42 is truthy and has no [toLowerCase]. *)
Theorem validateClassificationResult_throws_on_numeric_documentType :
  validateClassificationResult
    [ ("documentType", JNum 42);
      ("confidence", JNum 0.9);
      ("department", JStr "finance");
      ("routingConfidence", JNum 0.9);
      ("extractedData", JObj []);
      ("reasoning", JStr "none");
      ("suggestedActions", JArr []) ]
  = Throw (TypeError "result.documentType.toLowerCase is not a function").
Proof. vm_compute. reflexivity. Qed.

(** A second candidate on which the sanitizer throws: a [confidence]
    that is an object with a property named [toString]. *)
Lemma validateClassificationResult_throws_on_hidden_toString :
  validateClassificationResult
    [ ("documentType", JStr "invoice");
      ("confidence", JObj [("toString", JNum 1)]);
      ("department", JStr "finance");
      ("routingConfidence", JNum 0.9) ]
  = Throw (TypeError "Cannot convert object to primitive value").
Proof. vm_compute. reflexivity. Qed.

(** C3 (refuted on the code): a [confidence] that is no number does not
    always come out as 0.5.  For the object with the one property
    [toString] set to 1, [parseFloat] throws while it converts the
    object to a string, and so do [validateConfidence] and, for a
    candidate that has every other field as the prompt asks for it, the
    sanitizer: there is no result, and no 0.5. *)
Theorem validateConfidence_throws_on_unconvertible_confidence :
  validateConfidence (JObj [("toString", JNum 1)])
  = Throw (TypeError "Cannot convert object to primitive value")
  /\ validateClassificationResult
       [ ("documentType", JStr "invoice");
         ("confidence", JObj [("toString", JNum 1)]);
         ("department", JStr "finance");
         ("routingConfidence", JNum 0.9);
         ("extractedData", JObj []);
         ("reasoning", JStr "none");
         ("suggestedActions", JArr []) ]
     = Throw (TypeError "Cannot convert object to primitive value").
Proof. split; vm_compute; reflexivity. Qed.

(** C4 (refuted on the code): a [documentType] string that is no member
    of the document types does not always come out as "other".  For a
    candidate with the [documentType] "memo" and the number 42 as its
    [department], every other field as the prompt asks for it, the
    sanitizer throws on the department: there is no result, and no
    "other". *)
Theorem validateClassificationResult_throws_after_unknown_documentType :
  memberIgnoreCase "memo" config.documentTypes.values = false
  /\ validateClassificationResult
       [ ("documentType", JStr "memo");
         ("confidence", JNum 0.9);
         ("department", JNum 42);
         ("routingConfidence", JNum 0.9);
         ("extractedData", JObj []);
         ("reasoning", JStr "none");
         ("suggestedActions", JArr []) ]
     = Throw (TypeError "result.department.toLowerCase is not a function").
Proof. split; vm_compute; reflexivity. Qed.

(** Whenever the sanitizer returns, each of [confidence] and
    [routingConfidence] is 0.5 when the field parses to NaN, to a Number
    below 0 or to a Number above 1, and is the parsed Number when that
    lies in the closed interval from 0 to 1. *)
Theorem validateClassificationResult_confidence (result : Obj)
        (c : Classification) :
  validateClassificationResult result = Return c ->
  exists x y,
    parseFloat (Get result "confidence") = Return x
    /\ parseFloat (Get result "routingConfidence") = Return y
    /\ (is_nan x = true \/ (x <? 0)%float = true \/ (1 <? x)%float = true ->
        confidence c = 0.5%float)
    /\ (inUnitInterval x = true -> confidence c = x)
    /\ (is_nan y = true \/ (y <? 0)%float = true \/ (1 <? y)%float = true ->
        routingConfidence c = 0.5%float)
    /\ (inUnitInterval y = true -> routingConfidence c = y).
Proof.
  intros H.
  destruct (validateClassificationResult_inv result c H)
    as (x & y & _ & _ & Hx & Hy & Hcx & Hcy & _).
  exists x, y. rewrite Hcx, Hcy.
  repeat split; try assumption.
  - intros Hout. apply inUnitInterval_false_iff in Hout.
    rewrite Hout. reflexivity.
  - intros Hin. rewrite Hin. reflexivity.
  - intros Hout. apply inUnitInterval_false_iff in Hout.
    rewrite Hout. reflexivity.
  - intros Hin. rewrite Hin. reflexivity.
Qed.

(** A candidate with a confidence that is a word and a routing
    confidence written as a string with a unit: the first becomes 0.5,
    the second is read as 0.9. *)
Lemma validateClassificationResult_confidence_witness :
  exists c,
    validateClassificationResult
      [ ("documentType", JStr "invoice");
        ("confidence", JStr "high");
        ("routingConfidence", JStr "0.9 (sure)") ] = Return c
    /\ confidence c = 0.5%float
    /\ routingConfidence c = 0.9%float.
Proof.
  eexists. split; [vm_compute; reflexivity |].
  match goal with
  | |- confidence ?c = _ /\ _ =>
      destruct (validateClassificationResult_confidence
                  [ ("documentType", JStr "invoice");
                    ("confidence", JStr "high");
                    ("routingConfidence", JStr "0.9 (sure)") ] c eq_refl)
        as (x & y & Hx & Hy & Hout & _ & _ & Hin)
  end.
  vm_compute in Hx. vm_compute in Hy.
  injection Hx as <-. injection Hy as <-.
  split; [apply Hout; left; reflexivity | apply Hin; reflexivity].
Defined.

(** Whenever the sanitizer returns, a [documentType] string that is
    no member of the document types, compared without regard to case,
    comes out as "other", a [department] string that is no member of the
    departments as "general", and a member comes out in lower case. *)
Theorem validateClassificationResult_enums (result : Obj)
        (c : Classification) :
  validateClassificationResult result = Return c ->
  (forall s, Get result "documentType" = JStr s ->
     documentType c
     = if memberIgnoreCase s config.documentTypes.values
       then toLowerCase s else "other")
  /\ (forall s, Get result "department" = JStr s ->
        department c
        = if memberIgnoreCase s config.departments.values
          then toLowerCase s else "general").
Proof.
  intros H.
  destruct (validateClassificationResult_inv result c H)
    as (x & y & Hdt & Hdp & _).
  split; intros s Hs.
  - rewrite Hs, enumField_string in Hdt by reflexivity.
    rewrite (includes_toLowerCase _ s documentTypes_lower_case) in Hdt.
    injection Hdt as <-. reflexivity.
  - rewrite Hs, enumField_string in Hdp by reflexivity.
    rewrite (includes_toLowerCase _ s departments_lower_case) in Hdp.
    injection Hdp as <-. reflexivity.
Qed.

(** A purchase order in mixed case, routed to a department that does not
    exist. *)
Lemma validateClassificationResult_enums_witness :
  exists c,
    validateClassificationResult
      [ ("documentType", JStr "Purchase_Order");
        ("department", JStr "Human Resources") ] = Return c
    /\ documentType c = "purchase_order"
    /\ department c = "general".
Proof.
  eexists. split; [vm_compute; reflexivity |].
  match goal with
  | |- documentType ?c = _ /\ _ =>
      destruct (validateClassificationResult_enums
                  [ ("documentType", JStr "Purchase_Order");
                    ("department", JStr "Human Resources") ] c eq_refl)
        as [Hdt Hdp]
  end.
  split.
  - rewrite (Hdt "Purchase_Order" eq_refl). reflexivity.
  - rewrite (Hdp "Human Resources" eq_refl). reflexivity.
Defined.

(** C9 (refuted as stated): an array of numbers is no sequence of
    strings, and the sanitizer keeps it as it is. *)
Lemma validateClassificationResult_keeps_array_of_numbers :
  exists c,
    validateClassificationResult
      [ ("documentType", JStr "invoice");
        ("suggestedActions", JArr [JNum 1; JNum 2]) ] = Return c
    /\ suggestedActions c = [JNum 1; JNum 2].
Proof. eexists. split; vm_compute; reflexivity. Qed.

(** C9 (amended): whenever the sanitizer returns, [suggestedActions] is
    the empty sequence when the field is not an array, and the array
    itself, whatever its elements, when it is one. *)
Theorem validateClassificationResult_suggestedActions (result : Obj)
        (c : Classification) :
  validateClassificationResult result = Return c ->
  (isArray (Get result "suggestedActions") = false ->
   suggestedActions c = [])
  /\ (forall actions, Get result "suggestedActions" = JArr actions ->
        suggestedActions c = actions).
Proof.
  intros H.
  destruct (validateClassificationResult_inv result c H)
    as (x & y & _ & _ & _ & _ & _ & _ & _ & _ & Hsa).
  rewrite Hsa. split.
  - destruct (Get result "suggestedActions"); try reflexivity. discriminate.
  - intros actions ->. reflexivity.
Qed.

Lemma validateClassificationResult_suggestedActions_witness :
  exists c d,
    validateClassificationResult
      [ ("suggestedActions", JStr "Review manually") ] = Return c
    /\ suggestedActions c = []
    /\ validateClassificationResult
         [ ("suggestedActions", JArr [JStr "Pay"; JNull]) ] = Return d
    /\ suggestedActions d = [JStr "Pay"; JNull].
Proof.
  eexists. eexists.
  split; [vm_compute; reflexivity |].
  split.
  - match goal with
    | |- suggestedActions ?c = _ =>
        destruct (validateClassificationResult_suggestedActions
                    [ ("suggestedActions", JStr "Review manually") ] c eq_refl)
          as [Hnot _]
    end.
    apply Hnot. reflexivity.
  - split; [vm_compute; reflexivity |].
    match goal with
    | |- suggestedActions ?d = _ =>
        destruct (validateClassificationResult_suggestedActions
                    [ ("suggestedActions", JArr [JStr "Pay"; JNull]) ] d eq_refl)
          as [_ Harr]
    end.
    apply Harr. reflexivity.
Defined.

(** ** The gateway *)

(** The gateway on a non-empty string, step by step. *)
Lemma classifyDocument_string (host : Host) (content : string) (w : World) :
  content <> "" ->
  classifyDocument host (JStr content) w
  = let w' := logPrompt (classificationPrompt ++ content) w in
    match generateContent host (classificationPrompt ++ content) with
    | Replied text =>
        (match validateClassificationResult
                 (match parseReply host text with
                  | Return o => o
                  | Throw _ => fallbackClassification
                  end) with
         | Return c => Return c
         | Throw e => Throw ClassificationUnavailable
         end, w')
    | Failed reason => (Throw ClassificationUnavailable, w')
    end.
Proof.
  intros Hne. apply string_eqb_empty in Hne.
  unfold classifyDocument, tryCatch, bind, liftC, generate, logPrompt.
  cbn [ToBoolean isString ToString negb orb]. rewrite Hne. cbn [negb orb].
  destruct (generateContent host (classificationPrompt ++ content))
    as [text | reason]; [| reflexivity].
  destruct (validateClassificationResult _) as [c | e] eqn:Hv; [reflexivity|].
  unfold rethrowOr500, throw.
  rewrite (validateClassificationResult_throws_TypeError _ _ Hv). reflexivity.
Qed.

(** Whatever the model does, the gateway sends it one prompt: the fixed
    instructions followed by the text. *)
Lemma classifyDocument_world (host : Host) (content : string) (w : World) :
  content <> "" ->
  snd (classifyDocument host (JStr content) w)
  = logPrompt (classificationPrompt ++ content) w.
Proof.
  intros Hne. rewrite (classifyDocument_string host content w Hne).
  cbv zeta.
  destruct (generateContent host (classificationPrompt ++ content));
    reflexivity.
Qed.

Lemma validateClassificationResult_fallback :
  validateClassificationResult fallbackClassification
  = Return fallbackCandidate.
Proof. vm_compute. reflexivity. Qed.

(** C2: when the model replies and its reply holds no JSON object, or
    the match does not decode, [classifyDocument] returns exactly the
    fallback candidate; it does not throw. *)
Theorem classifyDocument_fallback_on_malformed_reply (host : Host)
        (content text : string) (w : World) :
  content <> "" ->
  generateContent host (classificationPrompt ++ content) = Replied text ->
  jsonMatch text = None
  \/ (exists json, jsonMatch text = Some json /\ JSON_parse host json = None) ->
  classifyDocument host (JStr content) w
  = (Return fallbackCandidate,
     logPrompt (classificationPrompt ++ content) w).
Proof.
  intros Hne Hreply Hbad.
  rewrite (classifyDocument_string host content w Hne). cbv zeta.
  rewrite Hreply.
  assert (Hparse : exists e, parseReply host text = Throw e).
  { unfold parseReply. destruct Hbad as [-> | (json & -> & ->)]; eauto. }
  destruct Hparse as [e ->].
  rewrite validateClassificationResult_fallback. reflexivity.
Qed.

(** A candidate the sanitizer throws on reaches the caller of the gateway
    as the error of a failed call to the model. *)
Lemma classifyDocument_numeric_documentType :
  classifyDocument numericTypeHost (JStr "Lorem ipsum") sampleWorld
  = (Throw ClassificationUnavailable,
     logPrompt (classificationPrompt ++ "Lorem ipsum") sampleWorld).
Proof. vm_compute. reflexivity. Qed.

(** The model answers in prose: the caller gets the fallback. *)
Lemma classifyDocument_fallback_witness :
  classifyDocument proseHost (JStr "Lorem ipsum") sampleWorld
  = (Return fallbackCandidate,
     logPrompt (classificationPrompt ++ "Lorem ipsum") sampleWorld).
Proof.
  apply (classifyDocument_fallback_on_malformed_reply proseHost
           "Lorem ipsum" "I am not able to classify this text.").
  - discriminate.
  - reflexivity.
  - left. reflexivity.
Defined.

(** ** The search in the reply *)

Lemma uptoLast_none (c : ascii) (s : string) :
  contains c s = false -> uptoLast c s = None.
Proof.
  induction s as [| a r IH]; cbn [contains uptoLast]; [reflexivity|].
  intros H. apply orb_false_iff in H as [Ha Hr].
  rewrite (IH Hr), Ha. reflexivity.
Qed.

Lemma uptoLast_some (c : ascii) (s : string) :
  contains c s = true -> exists p, uptoLast c s = Some p.
Proof.
  induction s as [| a r IH]; cbn [contains uptoLast]; [discriminate|].
  intros H. destruct (uptoLast c r) as [p |] eqn:Hr; [eauto|].
  destruct (Ascii.eqb a c) eqn:Ha; [eauto|].
  cbn [orb] in H. destruct (IH H) as [p Hp]. discriminate.
Qed.

Lemma fromFirst_app (c : ascii) (pre rest : string) :
  contains c pre = false ->
  fromFirst c (pre ++ String c rest) = Some (String c rest).
Proof.
  induction pre as [| a r IH]; cbn [contains fromFirst append].
  - intros _. rewrite Ascii.eqb_refl. reflexivity.
  - intros H. apply orb_false_iff in H as [Ha Hr]. rewrite Ha. apply IH, Hr.
Qed.

Lemma fromFirst_inv (c : ascii) (s t : string) :
  fromFirst c s = Some t ->
  exists pre rest,
    s = pre ++ t /\ t = String c rest /\ contains c pre = false.
Proof.
  induction s as [| a r IH]; cbn [fromFirst]; [discriminate|].
  destruct (Ascii.eqb a c) eqn:Ha.
  - intros [= <-]. apply Ascii.eqb_eq in Ha as ->.
    exists "", r. repeat split.
  - intros H. destruct (IH H) as (pre & rest & -> & -> & Hpre).
    exists (String a pre), rest. repeat split.
    cbn [contains]. rewrite Ha, Hpre. reflexivity.
Qed.

Lemma uptoLast_app (c : ascii) (mid post : string) :
  contains c post = false ->
  uptoLast c (mid ++ String c post) = Some (mid ++ String c "").
Proof.
  intros Hpost. induction mid as [| a r IH]; cbn [uptoLast append].
  - rewrite (uptoLast_none c post Hpost), Ascii.eqb_refl. reflexivity.
  - rewrite IH. reflexivity.
Qed.

Lemma uptoLast_inv (c : ascii) (s p : string) :
  uptoLast c s = Some p ->
  exists mid post,
    s = p ++ post /\ p = mid ++ String c "" /\ contains c post = false.
Proof.
  revert p. induction s as [| a r IH]; cbn [uptoLast]; [discriminate|].
  intros p. destruct (uptoLast c r) as [q |] eqn:Hr.
  - intros [= <-]. destruct (IH q eq_refl) as (mid & post & -> & -> & Hpost).
    exists (String a mid), post. repeat split. assumption.
  - destruct (Ascii.eqb a c) eqn:Ha; [| discriminate].
    intros [= <-]. apply Ascii.eqb_eq in Ha as ->.
    exists "", r. repeat split.
    destruct (contains c r) eqn:Hc; [| reflexivity].
    destruct (uptoLast_some c r Hc) as [q Hq]. congruence.
Qed.

(** C5 (refuted as stated): a reply that holds a JSON object and, after
    it, a remark in braces.  The match runs from the first opening brace
    to the last closing brace; the first balanced object is shorter. *)
Lemma jsonMatch_is_not_the_first_balanced_object :
  jsonMatch (bq "{`documentType`:`invoice`} (see {appendix})")
  = Some (bq "{`documentType`:`invoice`} (see {appendix}")
  /\ firstBalancedObject (bq "{`documentType`:`invoice`} (see {appendix})")
     = Some (bq "{`documentType`:`invoice`}")
  /\ jsonMatch (bq "{`documentType`:`invoice`} (see {appendix})")
     <> firstBalancedObject (bq "{`documentType`:`invoice`} (see {appendix})").
Proof.
  split; [vm_compute; reflexivity |].
  split; [vm_compute; reflexivity |].
  vm_compute. discriminate.
Qed.

(** On that reply the gateway falls back, though the first balanced
    object decodes to an invoice. *)
Lemma classifyDocument_remark_after_object :
  classifyDocument remarkHost (JStr "Lorem ipsum") sampleWorld
  = (Return fallbackCandidate,
     logPrompt (classificationPrompt ++ "Lorem ipsum") sampleWorld)
  /\ option_map (JSON_parse remarkHost)
       (firstBalancedObject
          (bq "{`documentType`:`invoice`} (see {appendix})"))
     = Some (Some [("documentType", JStr "invoice")]).
Proof. split; vm_compute; reflexivity. Qed.

(** C5 (amended): the gateway decodes the span of the reply from its
    first opening brace to its last closing brace.  So a JSON object
    followed by further text is the span decoded exactly when that text
    holds no closing brace. *)
Theorem jsonMatch_first_open_to_last_close (host : Host) (text : string) :
  (forall m,
     jsonMatch text = Some m
     <-> exists pre mid post,
           text = pre ++ "{" ++ mid ++ "}" ++ post
           /\ m = "{" ++ mid ++ "}"
           /\ contains "{" pre = false
           /\ contains "}" post = false)
  /\ parseReply host text
     = match jsonMatch text with
       | None => Throw (Error "No JSON found in response")
       | Some json =>
           match JSON_parse host json with
           | Some o => Return o
           | None => Throw (SyntaxError "Unexpected token in JSON")
           end
       end.
Proof.
  split; [| reflexivity].
  intros m. unfold jsonMatch. split.
  - destruct (fromFirst "{" text) as [t |] eqn:Hf; [| discriminate].
    destruct (fromFirst_inv _ _ _ Hf) as (pre & rest & -> & -> & Hpre).
    destruct (uptoLast "}" rest) as [body |] eqn:Hl; [| discriminate].
    intros [= <-].
    destruct (uptoLast_inv _ _ _ Hl) as (mid & post & -> & -> & Hpost).
    exists pre, mid, post. repeat split; try assumption.
    cbn [append]. rewrite !append_assoc. reflexivity.
  - intros (pre & mid & post & -> & -> & Hpre & Hpost).
    cbn [append]. rewrite (fromFirst_app "{" pre _ Hpre).
    change (String "}" post) with ("}" ++ post).
    change (mid ++ "}" ++ post) with (mid ++ String "}" post).
    rewrite (uptoLast_app "}" mid post Hpost). reflexivity.
Qed.

(** ** The orchestrator *)

Lemma length_repeatChar (c : ascii) (n : nat) :
  String.length (repeatChar c n) = n.
Proof. induction n as [| n IH]; cbn; [reflexivity | now rewrite IH]. Qed.

Lemma trimEnd_aux_repeatChar (c : ascii) (n : nat) :
  isWhiteSpace c = false ->
  trimEnd_aux (repeatChar c (S n)) = Some (repeatChar c (S n)).
Proof.
  intros Hc. induction n as [| n IH].
  - cbn [repeatChar trimEnd_aux]. rewrite Hc. reflexivity.
  - change (repeatChar c (S (S n))) with (String c (repeatChar c (S n))).
    cbn [trimEnd_aux]. rewrite IH. reflexivity.
Qed.

Lemma trim_repeatChar (c : ascii) (n : nat) :
  isWhiteSpace c = false ->
  trim (repeatChar c (S n)) = repeatChar c (S n).
Proof.
  intros Hc. unfold trim, trimEnd.
  assert (Hstart : trimStart (repeatChar c (S n)) = repeatChar c (S n)).
  { cbn [repeatChar trimStart]. rewrite Hc. reflexivity. }
  rewrite Hstart, (trimEnd_aux_repeatChar c n Hc). reflexivity.
Qed.

Lemma textToClassify_not_empty (text : string) :
  text <> "" -> textToClassify text <> "".
Proof.
  intros Hne. unfold textToClassify.
  destruct (maxTextLength <? String.length text)%nat; [| assumption].
  intros H. apply (f_equal String.length) in H.
  rewrite length_append in H.
  change (String.length truncationMarker) with 15 in H.
  change (String.length "") with 0 in H. lia.
Qed.

Lemma not_blank_not_empty (text : string) :
  String.length (trim text) <> 0 -> text <> "".
Proof. intros H ->. apply H. reflexivity. Qed.

Lemma blank_test (text : string) :
  ((text =? "")%string || (String.length (trim text) =? 0)%nat) = false
  <-> String.length (trim text) <> 0.
Proof.
  split.
  - intros H. apply orb_false_iff in H as [_ H].
    apply Nat.eqb_neq in H. assumption.
  - intros H. apply orb_false_iff. split.
    + apply string_eqb_empty, not_blank_not_empty, H.
    + apply Nat.eqb_neq, H.
Qed.

Lemma extractTextFromTXT_spec (host : Host) (filePath : string) (w : World) :
  extractTextFromTXT filePath w
  = match fileContent (files w) filePath with
    | Some content =>
        if (content =? "")%string || (String.length (trim content) =? 0)%nat
        then (Throw (ApiError 400 "Text file is empty"), w)
        else (Return content, w)
    | None => (Throw (ApiError 500 "Failed to read text file"), w)
    end.
Proof.
  unfold extractTextFromTXT, tryCatch, bind, readFile.
  destruct (fileContent (files w) filePath) as [content |]; [| reflexivity].
  destruct ((content =? "")%string || _); reflexivity.
Qed.

Lemma extractTextFromPDF_world (host : Host) (filePath : string) (w : World) :
  snd (extractTextFromPDF host filePath w) = w.
Proof.
  unfold extractTextFromPDF, tryCatch, bind, readFile.
  destruct (fileContent (files w) filePath) as [data |]; [| reflexivity].
  destruct (pdfParse host data) as [text | reason]; [| reflexivity].
  unfold ret. destruct ((text =? "")%string || _); reflexivity.
Qed.

Lemma lookup_supportedMimeTypes (mimeType : string) :
  lookup supportedMimeTypes mimeType
  = if ("application/pdf" =? mimeType)%string then Own "pdf"
    else if ("text/plain" =? mimeType)%string then Own "txt"
    else if includes objectPrototypeKeys mimeType then Inherited mimeType
    else Absent.
Proof.
  unfold lookup, supportedMimeTypes. cbn [ownEntry].
  destruct ("application/pdf" =? mimeType)%string; [reflexivity|].
  destruct ("text/plain" =? mimeType)%string; reflexivity.
Qed.

(** Extraction reads the file system and leaves it as it was; when it
    returns, the path is not empty, the file exists and the text is not
    blank. *)
Lemma extractTextFromFile_returns (host : Host) (filePath mimeType : string)
      (w w' : World) (text : string) :
  extractTextFromFile host filePath mimeType w = (Return text, w') ->
  w' = w
  /\ filePath <> ""
  /\ (exists content, fileContent (files w) filePath = Some content)
  /\ String.length (trim text) <> 0.
Proof.
  unfold extractTextFromFile, tryCatch at 1.
  destruct (filePath =? "")%string eqn:Hp; [discriminate|].
  apply string_eqb_empty in Hp.
  unfold bind at 1, tryCatch at 1, access.
  destruct (fileContent (files w) filePath) as [content |] eqn:Hc;
    [| discriminate].
  rewrite lookup_supportedMimeTypes.
  assert (Hfinal : forall (m : M string),
             snd (m w) = w ->
             (let (c, w1) :=
                bind m (fun extractedText =>
                  if (extractedText =? "")%string
                     || (String.length (trim extractedText) =? 0)%nat
                  then throw (ApiError 400
                         "No text content could be extracted from the file")
                  else ret extractedText) w in
              match c with
              | Return a => (Return a, w1)
              | Throw e =>
                  rethrowOr500 "Failed to extract text from file" e w1
              end) = (Return text, w') ->
             w' = w /\ String.length (trim text) <> 0).
  { intros m Hm. unfold bind. destruct (m w) as [[t | e] w1] eqn:Hmw.
    - cbn [snd] in Hm. subst w1.
      destruct ((t =? "")%string || _) eqn:Hb.
      + unfold throw, rethrowOr500. cbn [instanceofApiError]. discriminate.
      + unfold ret. intros [= <- <-]. split; [reflexivity|].
        apply blank_test, Hb.
    - unfold rethrowOr500, throw. destruct (instanceofApiError e); discriminate. }
  intros H.
  assert (Hgoal : w' = w /\ String.length (trim text) <> 0).
  { destruct ("application/pdf" =? mimeType)%string.
    - apply (Hfinal (extractTextFromPDF host filePath));
        [apply extractTextFromPDF_world | exact H].
    - destruct ("text/plain" =? mimeType)%string.
      + apply (Hfinal (extractTextFromTXT filePath)); [| exact H].
        rewrite (extractTextFromTXT_spec host), Hc.
        destruct ((content =? "")%string || _); reflexivity.
      + destruct (includes objectPrototypeKeys mimeType).
        * apply (Hfinal (throw (ApiError 400 "Unsupported file format")));
            [reflexivity | exact H].
        * unfold throw, rethrowOr500 in H. cbn [instanceofApiError] in H.
          discriminate. }
  destruct Hgoal as [Hw Ht]. repeat split; eauto.
Qed.

(** Removing a file removes it. *)
Lemma fileContent_removeFile (fs : list (string * string)) (p : string) :
  fileContent (removeFile fs p) p = None.
Proof.
  induction fs as [| [q c] r IH]; cbn [removeFile fileContent]; [reflexivity|].
  destruct (q =? p)%string eqn:Hq; [assumption|].
  cbn [fileContent]. rewrite Hq. assumption.
Qed.

(** The file flow after a successful extraction: one call of the
    gateway on the capped text, then the clean-up of the upload, which
    removes it unless the file system does not let it go. *)
Lemma processDocument_after_extraction (host : Host) (env : config.Env)
      (file : File) (text : string) (w : World) :
  (size file <=? config.maxFileSize env)%Z = true ->
  includes (config.allowedFileTypes env) (mimetype file) = true ->
  extractTextFromFile host (path file) (mimetype file) w = (Return text, w) ->
  processDocument host env (Some file) w
  = (match fst (classifyDocument host (JStr (textToClassify text)) w) with
     | Return c =>
         Return (buildClassificationResult c
                   [ ("fileName", JStr (originalname file));
                     ("fileSize", JNum (ofZ (size file)));
                     ("mimeType", JStr (mimetype file));
                     ("uploadedAt", JStr (toISOString_now host)) ])
     | Throw e =>
         if instanceofApiError e then Throw e
         else Throw (ApiError 500 "Failed to process document")
     end,
     {| files := if includes (locked w) (path file) then files w
                 else removeFile (files w) (path file);
        locked := locked w;
        prompts := (classificationPrompt ++ textToClassify text) :: prompts w |}).
Proof.
  intros Hsize Htype Hext.
  destruct (extractTextFromFile_returns _ _ _ _ _ _ Hext)
    as (_ & Hpath & [content Hc] & Hblank).
  assert (Hne : textToClassify text <> "")
    by apply textToClassify_not_empty, not_blank_not_empty, Hblank.
  pose proof (classifyDocument_world host _ w Hne) as Hw.
  unfold processDocument, tryFinally, tryCatch, bind.
  rewrite Z.leb_antisym in Hsize. apply negb_true_iff in Hsize.
  rewrite Hsize, Htype. cbn [negb]. rewrite Hext.
  destruct (classifyDocument host (JStr (textToClassify text)) w)
    as [[c | e] w1]; cbn [fst snd] in *; subst w1.
  - unfold ret. apply string_eqb_empty in Hpath. rewrite Hpath.
    unfold cleanupTempFile, tryCatch, unlink, logPrompt.
    cbn [files locked prompts].
    rewrite Hc. destruct (includes (locked w) (path file)); reflexivity.
  - apply string_eqb_empty in Hpath. rewrite Hpath.
    unfold rethrowOr500, throw.
    destruct (instanceofApiError e);
      unfold cleanupTempFile, tryCatch, unlink, logPrompt;
      cbn [files locked prompts];
      rewrite Hc; destruct (includes (locked w) (path file)); reflexivity.
Qed.

(** Whether [fs.unlink] succeeds on an existing file is for the file
    system to say. *)
Lemma unlink_returns (filePath : string) (w : World) :
  fst (unlink filePath w) = Return tt ->
  includes (locked w) filePath = false.
Proof.
  unfold unlink. destruct (fileContent (files w) filePath); [| discriminate].
  destruct (includes (locked w) filePath); [discriminate | reflexivity].
Qed.

Lemma unlink_throws_on_existing (filePath content : string) (w : World)
      (e : JSError) :
  fileContent (files w) filePath = Some content ->
  fst (unlink filePath w) = Throw e ->
  includes (locked w) filePath = true.
Proof.
  intros Hc. unfold unlink. rewrite Hc.
  destruct (includes (locked w) filePath); [reflexivity | discriminate].
Qed.

(** The text flow on a string that is not blank. *)
Lemma classifyText_not_blank (host : Host) (text : string) (w : World) :
  String.length (trim text) <> 0 ->
  classifyText host (JStr text) w
  = (match fst (classifyDocument host (JStr (textToClassify text)) w) with
     | Return c =>
         Return (buildClassificationResult c
                   [ ("contentLength",
                       JNum (ofZ (Z.of_nat (String.length text))));
                     ("classifiedAt", JStr (toISOString_now host)) ])
     | Throw e =>
         if instanceofApiError e then Throw e
         else Throw (ApiError 500 "Failed to classify text content")
     end,
     logPrompt (classificationPrompt ++ textToClassify text) w).
Proof.
  intros Hblank.
  assert (Hne : textToClassify text <> "")
    by apply textToClassify_not_empty, not_blank_not_empty, Hblank.
  pose proof (classifyDocument_world host _ w Hne) as Hw.
  unfold classifyText, tryCatch, bind.
  cbn [ToBoolean isString negb orb].
  assert (Hempty : (text =? "")%string = false)
    by apply string_eqb_empty, not_blank_not_empty, Hblank.
  rewrite Hempty. cbn [negb orb].
  apply Nat.eqb_neq in Hblank. rewrite Hblank.
  destruct (classifyDocument host (JStr (textToClassify text)) w)
    as [[c | e] w1]; cbn [fst snd] in *; subst w1.
  - reflexivity.
  - unfold rethrowOr500, throw. destruct (instanceofApiError e); reflexivity.
Qed.

(** C6: a text longer than the cap of 50,000 characters is cut to the
    cap and given the truncation marker, a text within the cap is left
    as it is, and in the text flow and in the file flow that is the text
    the gateway sends to the model after its instructions. *)
Theorem textToClassify_truncates (host : Host) (env : config.Env)
        (text : string) (w : World) :
  (maxTextLength < String.length text ->
   String.length (textToClassify text)
   = maxTextLength + String.length truncationMarker
   /\ textToClassify text = substring0 maxTextLength text ++ truncationMarker)
  /\ (String.length text <= maxTextLength -> textToClassify text = text)
  /\ (String.length (trim text) <> 0 ->
      prompts (snd (classifyText host (JStr text) w))
      = (classificationPrompt ++ textToClassify text) :: prompts w)
  /\ (forall file,
        (size file <=? config.maxFileSize env)%Z = true ->
        includes (config.allowedFileTypes env) (mimetype file) = true ->
        extractTextFromFile host (path file) (mimetype file) w
        = (Return text, w) ->
        prompts (snd (processDocument host env (Some file) w))
        = (classificationPrompt ++ textToClassify text) :: prompts w).
Proof.
  split; [| split; [| split]].
  - intros Hlong. unfold textToClassify.
    apply Nat.ltb_lt in Hlong as Hltb. rewrite Hltb. split; [| reflexivity].
    rewrite length_append, length_substring0; [reflexivity | lia].
  - intros Hshort. unfold textToClassify.
    apply Nat.ltb_ge in Hshort. rewrite Hshort. reflexivity.
  - intros Hblank. rewrite (classifyText_not_blank host text w Hblank).
    reflexivity.
  - intros file Hsize Htype Hext.
    rewrite (processDocument_after_extraction host env file text w
               Hsize Htype Hext).
    reflexivity.
Qed.

Lemma textToClassify_truncates_witness :
  String.length (textToClassify longText)
  = maxTextLength + String.length truncationMarker
  /\ prompts (snd (classifyText proseHost (JStr longText) sampleWorld))
     = [classificationPrompt ++ textToClassify longText]
  /\ prompts (snd (processDocument proseHost config.defaults
                     (Some sampleFile) sampleWorld))
     = [classificationPrompt ++ "Invoice #123, Amount: $500"].
Proof.
  destruct (textToClassify_truncates proseHost config.defaults longText
              sampleWorld) as (Hlong & _ & Htext & _).
  destruct (textToClassify_truncates proseHost config.defaults
              "Invoice #123, Amount: $500" sampleWorld)
    as (_ & Hshort & _ & Hfile).
  split; [| split].
  - apply Hlong. unfold longText. rewrite length_repeatChar. apply Nat.lt_succ_diag_r.
  - apply Htext. unfold longText.
    rewrite (trim_repeatChar "a" maxTextLength eq_refl), length_repeatChar.
    discriminate.
  - rewrite (Hfile sampleFile) by (vm_compute; reflexivity).
    rewrite Hshort; [reflexivity |].
    apply Nat.leb_le. vm_compute. reflexivity.
Defined.

(** C7: when the call to the model fails, the gateway throws the status
    500 error of a failed classification and no fallback; the text flow
    and the file flow pass that error on; and the file flow has run its
    clean-up when it does: the uploaded file is removed when [fs.unlink]
    succeeds on it, and when [fs.unlink] fails the failure is swallowed,
    the files are as they were and the error passed on is still that of
    the failed classification. *)
Theorem classification_unavailable_is_propagated (host : Host)
        (env : config.Env) (content reason : string) (w : World) :
  content <> "" ->
  generateContent host (classificationPrompt ++ content) = Failed reason ->
  classifyDocument host (JStr content) w
  = (Throw ClassificationUnavailable,
     logPrompt (classificationPrompt ++ content) w)
  /\ (forall text,
        String.length (trim text) <> 0 ->
        textToClassify text = content ->
        classifyText host (JStr text) w
        = (Throw ClassificationUnavailable,
           logPrompt (classificationPrompt ++ content) w))
  /\ (forall file text,
        (size file <=? config.maxFileSize env)%Z = true ->
        includes (config.allowedFileTypes env) (mimetype file) = true ->
        extractTextFromFile host (path file) (mimetype file) w
        = (Return text, w) ->
        textToClassify text = content ->
        exists w',
          processDocument host env (Some file) w
          = (Throw ClassificationUnavailable, w')
          /\ (fst (unlink (path file) w) = Return tt ->
              fileContent (files w') (path file) = None)
          /\ (forall e, fst (unlink (path file) w) = Throw e ->
              files w' = files w)).
Proof.
  intros Hne Hdown.
  assert (Hgate : classifyDocument host (JStr content) w
                  = (Throw ClassificationUnavailable,
                     logPrompt (classificationPrompt ++ content) w)).
  { rewrite (classifyDocument_string host content w Hne). cbv zeta.
    rewrite Hdown. reflexivity. }
  split; [exact Hgate | split].
  - intros text Hblank Hcut.
    rewrite (classifyText_not_blank host text w Hblank), Hcut, Hgate.
    reflexivity.
  - intros file text Hsize Htype Hext Hcut.
    rewrite (processDocument_after_extraction host env file text w
               Hsize Htype Hext), Hcut, Hgate.
    destruct (extractTextFromFile_returns _ _ _ _ _ _ Hext)
      as (_ & _ & [existing Hc] & _).
    eexists. split; [reflexivity |]. cbn [files]. split.
    + intros Hok. rewrite (unlink_returns _ _ Hok).
      apply fileContent_removeFile.
    + intros e He. rewrite (unlink_throws_on_existing _ _ _ _ Hc He).
      reflexivity.
Qed.

Lemma classification_unavailable_witness :
  classifyText unreachableHost (JStr "Invoice #123, Amount: $500") sampleWorld
  = (Throw ClassificationUnavailable,
     logPrompt (classificationPrompt ++ "Invoice #123, Amount: $500")
       sampleWorld)
  /\ (exists w',
        processDocument unreachableHost config.defaults (Some sampleFile)
          sampleWorld
        = (Throw ClassificationUnavailable, w')
        /\ fileContent (files w') (path sampleFile) = None)
  /\ (exists w',
        processDocument unreachableHost config.defaults (Some sampleFile)
          lockedWorld
        = (Throw ClassificationUnavailable, w')
        /\ files w' = files lockedWorld).
Proof.
  destruct (classification_unavailable_is_propagated unreachableHost
              config.defaults "Invoice #123, Amount: $500" "fetch failed"
              sampleWorld) as (_ & Htext & Hfile);
    [discriminate | reflexivity |].
  destruct (classification_unavailable_is_propagated unreachableHost
              config.defaults "Invoice #123, Amount: $500" "fetch failed"
              lockedWorld) as (_ & _ & Hlocked);
    [discriminate | reflexivity |].
  split; [| split].
  - apply Htext; [intros H; vm_compute in H; discriminate |].
    vm_compute. reflexivity.
  - destruct (Hfile sampleFile "Invoice #123, Amount: $500")
      as (w' & Hflow & Hremoved & _); try (vm_compute; reflexivity).
    exists w'. split; [exact Hflow | apply Hremoved; reflexivity].
  - destruct (Hlocked sampleFile "Invoice #123, Amount: $500")
      as (w' & Hflow & _ & Hkept); try (vm_compute; reflexivity).
    exists w'. split; [exact Hflow |].
    apply (Hkept (Error "EPERM: operation not permitted, unlink")).
    reflexivity.
Defined.

(** C10: a value that is falsy, that is no string, or that is a string
    of white space alone makes [classifyText] throw a status 400 error in
    the world it was called in: no prompt has been sent.  The middleware
    in front of the route answers such a content with status 400 too. *)
Theorem classifyText_rejects_blank_input (host : Host)
        (textContent : JSValue) (w : World) :
  ToBoolean textContent = false
  \/ isString textContent = false
  \/ (exists s, textContent = JStr s /\ String.length (trim s) = 0) ->
  (exists message,
     classifyText host textContent w = (Throw (ApiError 400 message), w))
  /\ (exists message,
        validationMiddleware.validateTextContent textContent
        = validationMiddleware.Respond 400 message).
Proof.
  intros H. unfold classifyText, validationMiddleware.validateTextContent,
    tryCatch, throw.
  destruct (ToBoolean textContent) eqn:Ht; cbn [negb orb].
  2: { split; eexists; reflexivity. }
  destruct (isString textContent) eqn:Hs; cbn [negb].
  2: { split; eexists; reflexivity. }
  destruct H as [H | [H | (s & -> & Hblank)]]; try discriminate.
  rewrite Hblank. split; eexists; reflexivity.
Qed.

Lemma classifyText_rejects_blank_input_witness :
  (exists message,
     classifyText proseHost (JStr ("  " ++ LF ++ " ")) sampleWorld
     = (Throw (ApiError 400 message), sampleWorld))
  /\ (exists message,
        validationMiddleware.validateTextContent (JStr ("  " ++ LF ++ " "))
        = validationMiddleware.Respond 400 message).
Proof.
  apply (classifyText_rejects_blank_input proseHost
           (JStr ("  " ++ LF ++ " ")) sampleWorld).
  right. right. eexists. split; reflexivity.
Defined.

(** ** The routing advisor *)


(** The names the table of display names does not know: neither one of
    its own five nor one it inherits. *)
Lemma lookup_departmentNames_absent (department : string) :
  includes (map fst departmentNames) department = false ->
  includes objectPrototypeKeys department = false ->
  lookup departmentNames department = Absent.
Proof.
  unfold lookup, departmentNames, includes.
  cbn [map fst existsb ownEntry].
  intros Hown ->.
  rewrite !orb_false_iff in Hown.
  destruct Hown as (H1 & H2 & H3 & H4 & H5 & _).
  rewrite (String.eqb_sym "finance"), H1, (String.eqb_sym "procurement"), H2,
    (String.eqb_sym "legal"), H3, (String.eqb_sym "operations"), H4,
    (String.eqb_sym "general"), H5.
  reflexivity.
Qed.

(** The display name of the five departments, and of every name that is
    neither one of them nor a property of [Object.prototype]; the
    message follows the band of the routing confidence. *)
Lemma getRoutingRecommendation_names (confidence : float) :
  let recommend (name : string) : string :=
    if (0.8 <=? confidence)%float
    then "Recommended for automatic routing to " ++ name
    else if (0.6 <=? confidence)%float
    then "Suggested routing to " ++ name ++ " - Manual review recommended"
    else "Low confidence routing to " ++ name ++ " - Manual review required" in
  getRoutingRecommendation "finance" confidence = recommend "Finance Department"
  /\ getRoutingRecommendation "procurement" confidence
     = recommend "Procurement Department"
  /\ getRoutingRecommendation "legal" confidence = recommend "Legal Department"
  /\ getRoutingRecommendation "operations" confidence
     = recommend "Operations Department"
  /\ getRoutingRecommendation "general" confidence
     = recommend "General Administration"
  /\ (forall department,
        includes (map fst departmentNames) department = false ->
        includes objectPrototypeKeys department = false ->
        getRoutingRecommendation department confidence
        = recommend "General Administration").
Proof.
  cbv zeta. unfold getRoutingRecommendation, config.confidenceLevels.HIGH,
    config.confidenceLevels.MEDIUM.
  repeat split.
  intros department Hown Hinherited.
  rewrite (lookup_departmentNames_absent department Hown Hinherited).
  reflexivity.
Qed.




(** * Further properties *)

(** ** The schema of a sanitized classification *)

Lemma includes_In (l : list string) (s : string) :
  includes l s = true -> In s l.
Proof.
  unfold includes. intros H. apply existsb_exists in H as (w & Hw & Heq).
  apply String.eqb_eq in Heq. subst. assumption.
Qed.

Lemma enumField_member (expr : string) (valid : list string)
      (fallback : string) (v : JSValue) (r : string) :
  In fallback valid ->
  enumField expr valid fallback v = Return r -> In r valid.
Proof.
  intros Hfb. unfold enumField.
  destruct (negb (ToBoolean v)); [intros [= <-]; assumption |].
  destruct v; cbn [geminiService.callToLowerCase bindC]; try discriminate.
  destruct (includes valid (toLowerCase s)) eqn:Hin; cbn [negb].
  - intros [= <-]. apply includes_In, Hin.
  - intros [= <-]. assumption.
Qed.

Lemma inUnitInterval_clamped (x : float) :
  inUnitInterval (if inUnitInterval x then x else 0.5%float) = true.
Proof. destruct (inUnitInterval x) eqn:H; [exact H | reflexivity]. Qed.

Lemma OTHER_is_configured :
  In config.documentTypes.OTHER config.documentTypes.values.
Proof. apply includes_In. reflexivity. Qed.

Lemma GENERAL_is_configured :
  In config.departments.GENERAL config.departments.values.
Proof. apply includes_In. reflexivity. Qed.

(** X1: whatever the candidate, a sanitized classification has a document
    type and a department of the configured lists. *)
Theorem sanitized_enums_are_configured (result : Obj) (c : Classification) :
  validateClassificationResult result = Return c ->
  In (documentType c) config.documentTypes.values
  /\ In (department c) config.departments.values.
Proof.
  intros H.
  destruct (validateClassificationResult_inv result c H)
    as (x & y & Hdt & Hdp & _).
  split.
  - apply (enumField_member _ _ _ _ _ OTHER_is_configured Hdt).
  - apply (enumField_member _ _ _ _ _ GENERAL_is_configured Hdp).
Qed.

Lemma sanitized_enums_witness :
  exists c,
    validateClassificationResult
      [ ("documentType", JBool false); ("department", JStr "LEGAL") ]
    = Return c
    /\ In (documentType c) config.documentTypes.values
    /\ In (department c) config.departments.values.
Proof.
  eexists. split; [vm_compute; reflexivity |].
  match goal with
  | |- In (documentType ?c) _ /\ _ =>
      apply (sanitized_enums_are_configured
               [ ("documentType", JBool false); ("department", JStr "LEGAL") ]
               c eq_refl)
  end.
Defined.

(** X2: whatever the candidate, both confidences of a sanitized
    classification lie in the closed interval from 0 to 1; neither is
    NaN. *)
Theorem sanitized_confidences_in_unit_interval (result : Obj)
        (c : Classification) :
  validateClassificationResult result = Return c ->
  inUnitInterval (confidence c) = true
  /\ inUnitInterval (routingConfidence c) = true
  /\ is_nan (confidence c) = false
  /\ is_nan (routingConfidence c) = false.
Proof.
  intros H.
  destruct (validateClassificationResult_inv result c H)
    as (x & y & _ & _ & _ & _ & Hx & Hy & _).
  assert (Hcx : inUnitInterval (confidence c) = true)
    by (rewrite Hx; apply inUnitInterval_clamped).
  assert (Hcy : inUnitInterval (routingConfidence c) = true)
    by (rewrite Hy; apply inUnitInterval_clamped).
  repeat split; try assumption.
  - rewrite inUnitInterval_spec in Hcx. apply negb_true_iff in Hcx.
    rewrite !orb_false_iff in Hcx. tauto.
  - rewrite inUnitInterval_spec in Hcy. apply negb_true_iff in Hcy.
    rewrite !orb_false_iff in Hcy. tauto.
Qed.

Lemma sanitized_confidences_witness :
  exists c,
    validateClassificationResult
      [ ("confidence", JNum 95); ("routingConfidence", JStr "-Infinity") ]
    = Return c
    /\ inUnitInterval (confidence c) = true
    /\ inUnitInterval (routingConfidence c) = true
    /\ is_nan (confidence c) = false
    /\ is_nan (routingConfidence c) = false.
Proof.
  eexists. split; [vm_compute; reflexivity |].
  match goal with
  | |- inUnitInterval (confidence ?c) = _ /\ _ =>
      apply (sanitized_confidences_in_unit_interval
               [ ("confidence", JNum 95);
                 ("routingConfidence", JStr "-Infinity") ] c eq_refl)
  end.
Defined.

(** X3: the two defaulted fields: a sanitized classification always has a
    truthy [extractedData] and a truthy [reasoning]; a truthy value of
    the candidate is kept whatever its type, and an absent or falsy one
    becomes the empty object and "Classification completed". *)
Theorem sanitized_required_fields (result : Obj) (c : Classification) :
  validateClassificationResult result = Return c ->
  ToBoolean (extractedData c) = true
  /\ ToBoolean (reasoning c) = true
  /\ (ToBoolean (Get result "extractedData") = true ->
      extractedData c = Get result "extractedData")
  /\ (ToBoolean (Get result "extractedData") = false ->
      extractedData c = JObj [])
  /\ (ToBoolean (Get result "reasoning") = true ->
      reasoning c = Get result "reasoning")
  /\ (ToBoolean (Get result "reasoning") = false ->
      reasoning c = JStr "Classification completed").
Proof.
  intros H.
  destruct (validateClassificationResult_inv result c H)
    as (x & y & _ & _ & _ & _ & _ & _ & Hed & Hre & _).
  rewrite Hed, Hre.
  destruct (ToBoolean (Get result "extractedData")) eqn:He,
           (ToBoolean (Get result "reasoning")) eqn:Hr;
    repeat split; try assumption; try reflexivity; try discriminate.
Qed.

Lemma sanitized_required_fields_witness :
  exists c,
    validateClassificationResult
      [ ("extractedData", JStr ""); ("reasoning", JNum 42) ] = Return c
    /\ extractedData c = JObj []
    /\ reasoning c = JNum 42.
Proof.
  eexists. split; [vm_compute; reflexivity |].
  match goal with
  | |- extractedData ?c = _ /\ _ =>
      destruct (sanitized_required_fields
                  [ ("extractedData", JStr ""); ("reasoning", JNum 42) ]
                  c eq_refl)
        as (_ & _ & _ & Hed & Hre & _)
  end.
  split; [apply Hed; reflexivity | apply Hre; reflexivity].
Defined.

(** ** The gateway, whatever it is given *)

(** The gateway's input is a string that is not empty, or the gateway
    throws before it has called the model. *)
Lemma classifyDocument_input (host : Host) (v : JSValue) (w : World) :
  (exists content, v = JStr content /\ content <> "")
  \/ (ToBoolean v = false \/ isString v = false)
     /\ classifyDocument host v w = (Throw contentRequired, w).
Proof.
  destruct v as [| | b | x | s | elems | props];
    try (right; split; [right; reflexivity |];
         unfold classifyDocument, tryCatch; cbn [isString negb];
         rewrite orb_true_r; reflexivity).
  destruct s as [| a r].
  - right. split; [left; reflexivity | reflexivity].
  - left. exists (String a r). split; [reflexivity | discriminate].
Qed.

(** X4: a content that is falsy or no string makes the gateway throw its
    status 400 error in the world it was called in: the model is not
    called. *)
Theorem classifyDocument_rejects_non_string (host : Host) (v : JSValue)
        (w : World) :
  ToBoolean v = false \/ isString v = false ->
  classifyDocument host v w = (Throw contentRequired, w).
Proof.
  intros H.
  destruct (classifyDocument_input host v w)
    as [(content & -> & Hne) | [_ Hthrow]]; [| exact Hthrow].
  destruct H as [H | H]; [| discriminate].
  cbn [ToBoolean] in H. apply negb_false_iff, String.eqb_eq in H.
  contradiction.
Qed.

Lemma classifyDocument_rejects_non_string_witness :
  classifyDocument proseHost (JArr [JStr "Invoice #123"]) sampleWorld
  = (Throw contentRequired, sampleWorld).
Proof.
  apply (classifyDocument_rejects_non_string proseHost
           (JArr [JStr "Invoice #123"]) sampleWorld).
  right. reflexivity.
Defined.

(** X5: the footprint and the errors of the gateway: it leaves the files
    alone, sends at most one prompt (the instructions followed by the
    content), and throws nothing but its status 400 error and the status
    500 error of a failed classification. *)
Theorem classifyDocument_footprint (host : Host) (v : JSValue) (w : World) :
  files (snd (classifyDocument host v w)) = files w
  /\ (prompts (snd (classifyDocument host v w)) = prompts w
      \/ exists content,
           v = JStr content
           /\ prompts (snd (classifyDocument host v w))
              = (classificationPrompt ++ content) :: prompts w)
  /\ match fst (classifyDocument host v w) with
     | Return _ => True
     | Throw e => e = contentRequired \/ e = ClassificationUnavailable
     end.
Proof.
  destruct (classifyDocument_input host v w)
    as [(content & -> & Hne) | [_ Hthrow]].
  - rewrite (classifyDocument_string host content w Hne). cbv zeta.
    destruct (generateContent host (classificationPrompt ++ content))
      as [text | reason].
    + destruct (validateClassificationResult _) as [c | e];
        cbn [fst snd logPrompt files prompts];
        (split; [reflexivity | split;
           [right; exists content; split; reflexivity | auto]]).
    + cbn [fst snd logPrompt files prompts].
      split; [reflexivity | split;
        [right; exists content; split; reflexivity | auto]].
  - rewrite Hthrow. cbn [fst snd]. auto.
Qed.

(** X6: when the match of the reply decodes, the gateway returns what the
    sanitizer makes of the decoded object, and throws the status 500
    error when the sanitizer throws. *)
Theorem classifyDocument_decoded_reply (host : Host)
        (content text json : string) (o : Obj) (w : World) :
  content <> "" ->
  generateContent host (classificationPrompt ++ content) = Replied text ->
  jsonMatch text = Some json ->
  JSON_parse host json = Some o ->
  classifyDocument host (JStr content) w
  = (match validateClassificationResult o with
     | Return c => Return c
     | Throw _ => Throw ClassificationUnavailable
     end,
     logPrompt (classificationPrompt ++ content) w).
Proof.
  intros Hne Hreply Hmatch Hparse.
  rewrite (classifyDocument_string host content w Hne). cbv zeta.
  rewrite Hreply. unfold parseReply. rewrite Hmatch, Hparse. reflexivity.
Qed.

Lemma classifyDocument_decoded_reply_witness :
  classifyDocument invoiceHost (JStr "Invoice #123") sampleWorld
  = (Return {| documentType := "invoice";
               confidence := 0.92;
               department := "finance";
               routingConfidence := 0.9;
               extractedData := JObj [];
               reasoning := JStr "Classification completed";
               suggestedActions := [] |},
     logPrompt (classificationPrompt ++ "Invoice #123") sampleWorld).
Proof.
  rewrite (classifyDocument_decoded_reply invoiceHost "Invoice #123"
             (bq "{`documentType`:`Invoice`}")
             (bq "{`documentType`:`Invoice`}")
             [ ("documentType", JStr "Invoice");
               ("confidence", JNum 0.92);
               ("department", JStr "finance");
               ("routingConfidence", JNum 0.9) ] sampleWorld);
    try (vm_compute; reflexivity).
  discriminate.
Defined.

(** X7: whatever the model replies, a classification the gateway returns
    has a configured document type and department and confidences in the
    closed interval from 0 to 1. *)
Theorem classifyDocument_returns_valid_classification (host : Host)
        (v : JSValue) (w w' : World) (c : Classification) :
  classifyDocument host v w = (Return c, w') ->
  In (documentType c) config.documentTypes.values
  /\ In (department c) config.departments.values
  /\ inUnitInterval (confidence c) = true
  /\ inUnitInterval (routingConfidence c) = true.
Proof.
  intros H.
  assert (Hsan : exists o, validateClassificationResult o = Return c).
  { destruct (classifyDocument_input host v w)
      as [(content & -> & Hne) | [_ Hthrow]]; [| congruence].
    rewrite (classifyDocument_string host content w Hne) in H. cbv zeta in H.
    destruct (generateContent host (classificationPrompt ++ content))
      as [text | reason]; [| discriminate].
    destruct (validateClassificationResult _) as [c0 | e] eqn:Hv;
      [| discriminate].
    injection H as <- _. eauto. }
  destruct Hsan as [o Ho].
  destruct (validateClassificationResult_inv o c Ho)
    as (x & y & Hdt & Hdp & _ & _ & Hx & Hy & _).
  repeat split.
  - apply (enumField_member _ _ _ _ _ OTHER_is_configured Hdt).
  - apply (enumField_member _ _ _ _ _ GENERAL_is_configured Hdp).
  - rewrite Hx. apply inUnitInterval_clamped.
  - rewrite Hy. apply inUnitInterval_clamped.
Qed.

Lemma classifyDocument_returns_valid_classification_witness :
  In (documentType fallbackCandidate) config.documentTypes.values
  /\ In (department fallbackCandidate) config.departments.values
  /\ inUnitInterval (confidence fallbackCandidate) = true
  /\ inUnitInterval (routingConfidence fallbackCandidate) = true.
Proof.
  apply (classifyDocument_returns_valid_classification proseHost
           (JStr "Lorem ipsum") sampleWorld
           (logPrompt (classificationPrompt ++ "Lorem ipsum") sampleWorld)).
  vm_compute. reflexivity.
Defined.

(** ** Extraction *)

Lemma extractTextFromPDF_spec (host : Host) (filePath : string) (w : World) :
  extractTextFromPDF host filePath w
  = match fileContent (files w) filePath with
    | Some data =>
        match pdfParse host data with
        | Replied text =>
            if isBlank text
            then (Throw (ApiError 400
                    "PDF file appears to be empty or contains no extractable text"),
                  w)
            else (Return text, w)
        | Failed _ =>
            (Throw (ApiError 500 "Failed to extract text from PDF file"), w)
        end
    | None => (Throw (ApiError 500 "Failed to extract text from PDF file"), w)
    end.
Proof.
  unfold extractTextFromPDF, tryCatch, bind, readFile, isBlank.
  destruct (fileContent (files w) filePath) as [data |]; [| reflexivity].
  destruct (pdfParse host data) as [text | reason]; [| reflexivity].
  unfold ret. destruct ((text =? "")%string || _); reflexivity.
Qed.

(** The nested handlers of [extractTextFromFile] come to one decision
    table, and the world is the one it was called in. *)
Lemma extractTextFromFile_table (host : Host) (filePath mimeType : string)
      (w : World) :
  extractTextFromFile host filePath mimeType w
  = (extractionTable host filePath mimeType w, w).
Proof.
  unfold extractTextFromFile, extractionTable, tryCatch at 1.
  destruct (filePath =? "")%string; [reflexivity |].
  unfold bind at 1, tryCatch at 1, access.
  destruct (fileContent (files w) filePath) as [content |] eqn:Hc;
    [| reflexivity].
  rewrite lookup_supportedMimeTypes.
  destruct ("application/pdf" =? mimeType)%string.
  - unfold bind. rewrite extractTextFromPDF_spec, Hc.
    destruct (pdfParse host content) as [text | reason]; [| reflexivity].
    unfold isBlank. destruct ((text =? "")%string || _) eqn:Hb; [reflexivity |].
    rewrite Hb. reflexivity.
  - destruct ("text/plain" =? mimeType)%string.
    + unfold bind. rewrite (extractTextFromTXT_spec host), Hc.
      unfold isBlank. destruct ((content =? "")%string || _) eqn:Hb;
        [reflexivity |].
      rewrite Hb. reflexivity.
    + destruct (includes objectPrototypeKeys mimeType); reflexivity.
Qed.

(** X8: a text that extraction returns is the content of an existing file of
    one of the two supported kinds, read as it is (plain text) or through
    the PDF parser, and it is not blank; the world is unchanged. *)
Theorem extractTextFromFile_success (host : Host) (filePath mimeType : string)
        (w w' : World) (text : string) :
  extractTextFromFile host filePath mimeType w = (Return text, w') ->
  w' = w
  /\ isBlank text = false
  /\ exists content,
       fileContent (files w) filePath = Some content
       /\ (mimeType = "text/plain" /\ text = content
           \/ mimeType = "application/pdf"
              /\ pdfParse host content = Replied text).
Proof.
  rewrite extractTextFromFile_table. unfold extractionTable.
  destruct (filePath =? "")%string; [discriminate |].
  destruct (fileContent (files w) filePath) as [content |]; [| discriminate].
  destruct ("application/pdf" =? mimeType)%string eqn:Hpdf.
  - apply String.eqb_eq in Hpdf.
    destruct (pdfParse host content) as [t | reason] eqn:Hp; [| discriminate].
    destruct (isBlank t) eqn:Hb; [discriminate |].
    intros [= <- <-]. eauto 8.
  - destruct ("text/plain" =? mimeType)%string eqn:Htxt.
    + apply String.eqb_eq in Htxt.
      destruct (isBlank content) eqn:Hb; [discriminate |].
      intros [= <- <-]. eauto 8.
    + destruct (includes objectPrototypeKeys mimeType); discriminate.
Qed.

Lemma extractTextFromFile_success_witness :
  isBlank "Invoice #123, Amount: $500" = false
  /\ exists content,
       fileContent (files sampleWorld) "public/temp/invoice-1.txt"
       = Some content
       /\ ("text/plain" = "text/plain"
           /\ "Invoice #123, Amount: $500" = content
           \/ "text/plain" = "application/pdf"
              /\ pdfParse proseHost content
                 = Replied "Invoice #123, Amount: $500").
Proof.
  apply (extractTextFromFile_success proseHost "public/temp/invoice-1.txt"
           "text/plain" sampleWorld sampleWorld "Invoice #123, Amount: $500").
  vm_compute. reflexivity.
Defined.

(** X9: a path that names no file makes extraction throw status 404, and an
    empty path status 400, whatever the kind of the file. *)
Theorem extractTextFromFile_missing_file (host : Host)
        (filePath mimeType : string) (w : World) :
  fileContent (files w) filePath = None ->
  extractTextFromFile host filePath mimeType w
  = (Throw (if (filePath =? "")%string
            then ApiError 400 "File path is required"
            else ApiError 404 "File not found"), w).
Proof.
  intros H. rewrite extractTextFromFile_table. unfold extractionTable.
  rewrite H. destruct (filePath =? "")%string; reflexivity.
Qed.

Lemma extractTextFromFile_missing_file_witness :
  extractTextFromFile proseHost "public/temp/gone.txt" "text/plain" sampleWorld
  = (Throw (ApiError 404 "File not found"), sampleWorld).
Proof.
  apply (extractTextFromFile_missing_file proseHost "public/temp/gone.txt"
           "text/plain" sampleWorld).
  reflexivity.
Defined.

(** X10: for an existing file of a kind other than the two supported ones,
    extraction throws status 400 and names the kind in the message; a
    kind spelled like a property of [Object.prototype] passes the first
    test of the table of kinds and gets the message of the switch's
    default. *)
Theorem extractTextFromFile_unsupported_kind (host : Host)
        (filePath mimeType content : string) (w : World) :
  filePath <> "" ->
  fileContent (files w) filePath = Some content ->
  mimeType <> "application/pdf" ->
  mimeType <> "text/plain" ->
  extractTextFromFile host filePath mimeType w
  = (Throw (ApiError 400
              (if includes objectPrototypeKeys mimeType
               then "Unsupported file format"
               else "Unsupported file type: " ++ mimeType)), w).
Proof.
  intros Hp Hc Hpdf Htxt.
  rewrite extractTextFromFile_table. unfold extractionTable.
  apply string_eqb_empty in Hp. rewrite Hp, Hc.
  assert (H1 : ("application/pdf" =? mimeType)%string = false)
    by (apply String.eqb_neq; congruence).
  assert (H2 : ("text/plain" =? mimeType)%string = false)
    by (apply String.eqb_neq; congruence).
  rewrite H1, H2.
  destruct (includes objectPrototypeKeys mimeType); reflexivity.
Qed.

Lemma extractTextFromFile_unsupported_kind_witness :
  extractTextFromFile proseHost "public/temp/invoice-1.txt" "image/png"
    sampleWorld
  = (Throw (ApiError 400 "Unsupported file type: image/png"), sampleWorld)
  /\ extractTextFromFile proseHost "public/temp/invoice-1.txt" "constructor"
       sampleWorld
     = (Throw (ApiError 400 "Unsupported file format"), sampleWorld).
Proof.
  split.
  - apply (extractTextFromFile_unsupported_kind proseHost
             "public/temp/invoice-1.txt" "image/png"
             "Invoice #123, Amount: $500" sampleWorld);
      [discriminate | reflexivity | discriminate | discriminate].
  - apply (extractTextFromFile_unsupported_kind proseHost
             "public/temp/invoice-1.txt" "constructor"
             "Invoice #123, Amount: $500" sampleWorld);
      [discriminate | reflexivity | discriminate | discriminate].
Defined.

(** X11: extraction never changes the world, and everything it throws is an
    [ApiError] of status 400, 404 or 500.  Two of its own throws never
    happen: the check for blank text after the switch (the two
    extractors have made it) and the status 500 of its last handler
    (every error that reaches it is an [ApiError]). *)
Theorem extractTextFromFile_errors (host : Host) (filePath mimeType : string)
        (w : World) :
  snd (extractTextFromFile host filePath mimeType w) = w
  /\ match fst (extractTextFromFile host filePath mimeType w) with
     | Return _ => True
     | Throw e =>
         (exists status message,
            e = ApiError status message
            /\ (status = 400 \/ status = 404 \/ status = 500)%Z)
         /\ e <> ApiError 400
                   "No text content could be extracted from the file"
         /\ e <> ApiError 500 "Failed to extract text from file"
     end.
Proof.
  rewrite extractTextFromFile_table. cbn [fst snd]. split; [reflexivity |].
  unfold extractionTable.
  destruct (filePath =? "")%string.
  { repeat split; eauto; discriminate. }
  destruct (fileContent (files w) filePath) as [content |].
  2: { repeat split; eauto 6; discriminate. }
  destruct ("application/pdf" =? mimeType)%string.
  { destruct (pdfParse host content) as [t | reason].
    - destruct (isBlank t); [| exact I].
      repeat split; eauto; discriminate.
    - repeat split; eauto 6; discriminate. }
  destruct ("text/plain" =? mimeType)%string.
  { destruct (isBlank content); [| exact I].
    repeat split; eauto; discriminate. }
  destruct (includes objectPrototypeKeys mimeType).
  { repeat split; eauto; discriminate. }
  split; [eauto | split; [| discriminate]].
  intros [=].
Qed.

(** ** The file flow and the text flow *)

Lemma removeFile_absent (fs : list (string * string)) (p : string) :
  fileContent fs p = None -> removeFile fs p = fs.
Proof.
  induction fs as [| [q c] r IH]; cbn [removeFile fileContent];
    [reflexivity |].
  destruct (q =? p)%string; [discriminate |].
  intros H. rewrite (IH H). reflexivity.
Qed.


(** The [finally] block of [processDocument]: whether or not
    [fs.unlink] succeeds, the block completes; the upload is gone unless
    the file system does not let it go. *)
Lemma cleanup_spec (file : File) (w : World) :
  (if (path file =? "")%string then ret tt else cleanupTempFile (path file)) w
  = (Return tt, withoutUpload file w).
Proof.
  unfold withoutUpload.
  destruct (path file =? "")%string; [reflexivity |].
  unfold cleanupTempFile, tryCatch, unlink, ret.
  destruct (fileContent (files w) (path file)) eqn:Hc.
  - destruct (includes (locked w) (path file)); reflexivity.
  - destruct (includes (locked w) (path file)); [reflexivity |].
    rewrite (removeFile_absent _ _ Hc). destruct w; reflexivity.
Qed.

Lemma tryFinally_cleanup {A : Type} (m : M A) (file : File) (w : World) :
  tryFinally m
    (if (path file =? "")%string then ret tt else cleanupTempFile (path file))
    w
  = (fst (m w), withoutUpload file (snd (m w))).
Proof.
  unfold tryFinally. destruct (m w) as [c w'].
  rewrite cleanup_spec. reflexivity.
Qed.

Lemma extractionTable_throws_ApiError (host : Host)
      (filePath mimeType : string) (w : World) (e : JSError) :
  extractionTable host filePath mimeType w = Throw e ->
  exists status message,
    e = ApiError status message
    /\ (status = 400 \/ status = 404 \/ status = 500)%Z.
Proof.
  unfold extractionTable.
  destruct (filePath =? "")%string; [intros [= <-]; eauto |].
  destruct (fileContent (files w) filePath) as [content |];
    [| intros [= <-]; eauto 6].
  destruct ("application/pdf" =? mimeType)%string.
  { destruct (pdfParse host content) as [t | reason].
    - destruct (isBlank t); [intros [= <-]; eauto | discriminate].
    - intros [= <-]; eauto 6. }
  destruct ("text/plain" =? mimeType)%string.
  { destruct (isBlank content); [intros [= <-]; eauto | discriminate]. }
  destruct (includes objectPrototypeKeys mimeType); intros [= <-]; eauto.
Qed.

Lemma extractionTable_not_blank (host : Host) (filePath mimeType : string)
      (w : World) (text : string) :
  extractionTable host filePath mimeType w = Return text ->
  isBlank text = false.
Proof.
  unfold extractionTable.
  destruct (filePath =? "")%string; [discriminate |].
  destruct (fileContent (files w) filePath) as [content |]; [| discriminate].
  destruct ("application/pdf" =? mimeType)%string.
  { destruct (pdfParse host content) as [t | reason]; [| discriminate].
    destruct (isBlank t) eqn:Hb; [discriminate |]. intros [= <-]. exact Hb. }
  destruct ("text/plain" =? mimeType)%string.
  { destruct (isBlank content) eqn:Hb; [discriminate |].
    intros [= <-]. exact Hb. }
  destruct (includes objectPrototypeKeys mimeType); discriminate.
Qed.

Lemma isBlank_false (text : string) :
  isBlank text = false -> textToClassify text <> "".
Proof.
  intros H. apply textToClassify_not_empty, not_blank_not_empty.
  apply blank_test. exact H.
Qed.

(** What the gateway gives for a non-empty text: a sanitized
    classification, or the error of a failed classification; the world
    it is called in has no part in it. *)
Lemma classifyDocument_outcome (host : Host) (content : string) (w : World) :
  content <> "" ->
  fst (classifyDocument host (JStr content) w)
  = Throw ClassificationUnavailable
  \/ exists result c,
       validateClassificationResult result = Return c
       /\ fst (classifyDocument host (JStr content) w) = Return c.
Proof.
  intros Hne. rewrite (classifyDocument_string host content w Hne). cbv zeta.
  destruct (generateContent host (classificationPrompt ++ content))
    as [text | reason]; [| left; reflexivity].
  cbn [fst].
  destruct (validateClassificationResult _) as [c | e] eqn:Hv;
    [right; eauto | left; reflexivity].
Qed.

Lemma classifyDocument_any_world (host : Host) (content : string)
      (w w' : World) :
  content <> "" ->
  fst (classifyDocument host (JStr content) w)
  = fst (classifyDocument host (JStr content) w').
Proof.
  intros Hne.
  rewrite (classifyDocument_string host content w Hne),
          (classifyDocument_string host content w' Hne). cbv zeta.
  destruct (generateContent host (classificationPrompt ++ content));
    reflexivity.
Qed.

(** The file flow on a file object, case by case. *)
Lemma processDocument_table (host : Host) (env : config.Env) (file : File)
      (w : World) :
  processDocument host env (Some file) w
  = match uploadRejection env file with
    | Some e => (Throw e, withoutUpload file w)
    | None =>
        match extractionTable host (path file) (mimetype file) w with
        | Throw e => (Throw e, withoutUpload file w)
        | Return text =>
            (match fst (classifyDocument host
                          (JStr (textToClassify text)) w) with
             | Return c =>
                 Return (buildClassificationResult c (fileMetadata host file))
             | Throw e => Throw e
             end,
             withoutUpload file
               (logPrompt (classificationPrompt ++ textToClassify text) w))
        end
    end.
Proof.
  unfold processDocument. cbv beta iota. rewrite tryFinally_cleanup.
  unfold uploadRejection.
  destruct (config.maxFileSize env <? size file)%Z; [reflexivity |].
  destruct (includes (config.allowedFileTypes env) (mimetype file));
    cbn [negb]; [| reflexivity].
  unfold tryCatch, bind. rewrite extractTextFromFile_table.
  destruct (extractionTable host (path file) (mimetype file) w)
    as [text | e] eqn:Hx.
  - pose proof (isBlank_false _ (extractionTable_not_blank _ _ _ _ _ Hx))
      as Hne.
    pose proof (classifyDocument_world host _ w Hne) as Hw.
    pose proof (classifyDocument_outcome host _ w Hne) as Ho.
    destruct (classifyDocument host (JStr (textToClassify text)) w)
      as [[c | e] w1]; cbn [fst snd] in *; subst w1; [reflexivity |].
    destruct Ho as [[= ->] | (o & c & _ & [=])]. reflexivity.
  - destruct (extractionTable_throws_ApiError _ _ _ _ _ Hx)
      as (status & message & -> & _).
    reflexivity.
Qed.

(** The text flow, case by case. *)
Lemma classifyText_table (host : Host) (textContent : JSValue) (w : World) :
  classifyText host textContent w
  = if negb (ToBoolean textContent) || negb (isString textContent)
    then (Throw textRequired, w)
    else
      match textContent with
      | JStr text =>
          if (String.length (trim text) =? 0)%nat
          then (Throw textEmpty, w)
          else
            (match fst (classifyDocument host
                          (JStr (textToClassify text)) w) with
             | Return c =>
                 Return (buildClassificationResult c (textMetadata host text))
             | Throw e => Throw e
             end,
             logPrompt (classificationPrompt ++ textToClassify text) w)
      | _ => (Throw textRequired, w)
      end.
Proof.
  destruct (negb (ToBoolean textContent) || negb (isString textContent))
    eqn:Hguard.
  { unfold classifyText, tryCatch. rewrite Hguard. reflexivity. }
  destruct textContent as [| | | | text | |];
    try (cbn [isString negb orb] in Hguard; rewrite orb_true_r in Hguard;
         discriminate).
  destruct (String.length (trim text) =? 0)%nat eqn:Hb.
  { unfold classifyText, tryCatch. rewrite Hguard, Hb. reflexivity. }
  apply Nat.eqb_neq in Hb.
  rewrite (classifyText_not_blank host text w Hb).
  assert (Hne : textToClassify text <> "")
    by apply textToClassify_not_empty, not_blank_not_empty, Hb.
  destruct (classifyDocument_outcome host _ w Hne) as [-> | (o & c & _ & ->)];
    reflexivity.
Qed.




(** X13: an upload over the size limit, or of a kind that is not allowed, is
    refused with status 400 before it is read: no prompt is sent. *)
Theorem processDocument_refuses_before_reading (host : Host)
        (env : config.Env) (file : File) (w : World) :
  (config.maxFileSize env < size file)%Z
  \/ includes (config.allowedFileTypes env) (mimetype file) = false ->
  (exists message,
     fst (processDocument host env (Some file) w)
     = Throw (ApiError 400 message))
  /\ prompts (snd (processDocument host env (Some file) w)) = prompts w.
Proof.
  intros H. rewrite processDocument_table.
  assert (Hp : prompts (withoutUpload file w) = prompts w).
  { unfold withoutUpload. destruct (path file =? "")%string; [reflexivity |].
    destruct (includes (locked w) (path file)); reflexivity. }
  unfold uploadRejection.
  destruct (config.maxFileSize env <? size file)%Z eqn:Hsize.
  { split; [eexists; reflexivity | exact Hp]. }
  destruct H as [H | H]; [apply Z.ltb_lt in H; congruence |].
  rewrite H. cbn [negb]. split; [eexists; reflexivity | exact Hp].
Qed.

Lemma processDocument_refuses_before_reading_witness :
  (exists message,
     fst (processDocument proseHost config.defaults
            (Some {| path := "public/temp/scan-1.png"; size := 2048;
                     mimetype := "image/png"; originalname := "scan.png" |})
            sampleWorld)
     = Throw (ApiError 400 message))
  /\ prompts (snd (processDocument proseHost config.defaults
            (Some {| path := "public/temp/scan-1.png"; size := 2048;
                     mimetype := "image/png"; originalname := "scan.png" |})
            sampleWorld))
     = prompts sampleWorld.
Proof.
  apply (processDocument_refuses_before_reading proseHost config.defaults
           {| path := "public/temp/scan-1.png"; size := 2048;
              mimetype := "image/png"; originalname := "scan.png" |}
           sampleWorld).
  right. reflexivity.
Defined.

(** X14: whatever the file flow throws is an [ApiError] of status 400, 404 or
    500 that a step of the flow has made: the status 500 "Failed to
    process document" of its last handler is never thrown.  A missing
    file object gives status 400. *)
Theorem processDocument_errors (host : Host) (env : config.Env)
        (file : option File) (w : World) :
  match fst (processDocument host env file w) with
  | Return _ => exists f, file = Some f
  | Throw e =>
      (exists status message,
         e = ApiError status message
         /\ (status = 400 \/ status = 404 \/ status = 500)%Z)
      /\ e <> ApiError 500 "Failed to process document"
      /\ (file = None -> e = ApiError 400 "No file provided")
  end.
Proof.
  destruct file as [file |].
  2: { cbn. split; [eauto | split; [discriminate | reflexivity]]. }
  rewrite processDocument_table. unfold uploadRejection.
  destruct (config.maxFileSize env <? size file)%Z.
  { cbn [fst]. split; [eauto | split; discriminate]. }
  destruct (includes (config.allowedFileTypes env) (mimetype file));
    cbn [negb].
  2: { cbn [fst]. split; [eauto | split; discriminate]. }
  pose proof (extractTextFromFile_table host (path file) (mimetype file) w)
    as Htable.
  destruct (extractionTable host (path file) (mimetype file) w)
    as [text | e] eqn:Hx.
  - pose proof (isBlank_false _ (extractionTable_not_blank _ _ _ _ _ Hx))
      as Hne.
    cbn [fst].
    destruct (classifyDocument_outcome host _ w Hne)
      as [-> | (o & c & _ & ->)]; [| eauto].
    unfold ClassificationUnavailable.
    split; [eauto 6 | split; discriminate].
  - cbn [fst].
    split; [exact (extractionTable_throws_ApiError _ _ _ _ _ Hx) |].
    split; [| discriminate].
    unfold extractionTable in Hx.
    destruct (path file =? "")%string; [injection Hx as <-; discriminate |].
    destruct (fileContent (files w) (path file)) as [content |];
      [| injection Hx as <-; discriminate].
    destruct ("application/pdf" =? mimetype file)%string.
    { destruct (pdfParse host content) as [t | reason].
      - destruct (isBlank t); [injection Hx as <-; discriminate | discriminate].
      - injection Hx as <-; discriminate. }
    destruct ("text/plain" =? mimetype file)%string.
    { destruct (isBlank content);
        [injection Hx as <-; discriminate | discriminate]. }
    destruct (includes objectPrototypeKeys (mimetype file));
      injection Hx as <-; [discriminate |].
    intros [=].
Qed.

(** X15: the text flow throws one of three errors and nothing else: the two
    status 400 errors of its own checks, in the world it was called in,
    or the error of a failed classification, after the one prompt; the
    status 500 "Failed to classify text content" of its last handler is
    never thrown.  When it returns, one prompt was sent. *)
Theorem classifyText_errors (host : Host) (textContent : JSValue)
        (w : World) :
  match classifyText host textContent w with
  | (Throw e, w') =>
      (e = textRequired /\ w' = w)
      \/ (e = textEmpty /\ w' = w)
      \/ (e = ClassificationUnavailable
          /\ exists prompt, w' = logPrompt prompt w)
  | (Return _, w') => exists prompt, w' = logPrompt prompt w
  end.
Proof.
  rewrite classifyText_table.
  destruct (negb (ToBoolean textContent) || negb (isString textContent));
    [left; split; reflexivity |].
  destruct textContent as [| | | | text | |];
    try (left; split; reflexivity).
  destruct (String.length (trim text) =? 0)%nat eqn:Hb;
    [right; left; split; reflexivity |].
  apply Nat.eqb_neq in Hb.
  assert (Hne : textToClassify text <> "")
    by apply textToClassify_not_empty, not_blank_not_empty, Hb.
  destruct (classifyDocument_outcome host _ w Hne)
    as [-> | (o & c & _ & ->)]; eauto 6.
Qed.

(** X16: the two flows treat a text alike: for a file that passes the checks
    and whose text is extracted, the file flow gives the classification,
    the level and the recommendation that the text flow gives for that
    text, or throws the same error; the results differ in their metadata
    alone. *)
Theorem flows_agree (host : Host) (env : config.Env) (file : File)
        (text : string) (w : World) :
  (size file <=? config.maxFileSize env)%Z = true ->
  includes (config.allowedFileTypes env) (mimetype file) = true ->
  extractTextFromFile host (path file) (mimetype file) w = (Return text, w) ->
  match fst (processDocument host env (Some file) w),
        fst (classifyText host (JStr text) w) with
  | Return fromFile, Return fromText =>
      classification fromFile = classification fromText
      /\ confidenceLevel fromFile = confidenceLevel fromText
      /\ routingRecommendation fromFile = routingRecommendation fromText
  | Throw e, Throw e' => e = e'
  | _, _ => False
  end
  /\ prompts (snd (processDocument host env (Some file) w))
     = prompts (snd (classifyText host (JStr text) w)).
Proof.
  intros Hsize Htype Hext.
  rewrite extractTextFromFile_table in Hext. injection Hext as Hx.
  pose proof (extractionTable_not_blank _ _ _ _ _ Hx) as Hb.
  rewrite processDocument_table, classifyText_table.
  unfold uploadRejection.
  rewrite Z.leb_antisym in Hsize. apply negb_true_iff in Hsize.
  rewrite Hsize, Htype, Hx. cbn [negb ToBoolean isString orb].
  apply blank_test in Hb.
  assert (He : (text =? "")%string = false)
    by apply string_eqb_empty, not_blank_not_empty, Hb.
  rewrite He. cbn [negb orb].
  apply Nat.eqb_neq in Hb. rewrite Hb. cbn [fst snd].
  split.
  - destruct (fst (classifyDocument host (JStr (textToClassify text)) w));
      [repeat split | reflexivity].
  - unfold withoutUpload, logPrompt. cbn [locked].
    destruct (path file =? "")%string; [reflexivity |].
    destruct (includes (locked w) (path file)); reflexivity.
Qed.

Lemma flows_agree_witness :
  match fst (processDocument invoiceHost config.defaults (Some sampleFile)
               sampleWorld),
        fst (classifyText invoiceHost (JStr "Invoice #123, Amount: $500")
               sampleWorld) with
  | Return fromFile, Return fromText =>
      classification fromFile = classification fromText
      /\ confidenceLevel fromFile = confidenceLevel fromText
      /\ routingRecommendation fromFile = routingRecommendation fromText
  | Throw e, Throw e' => e = e'
  | _, _ => False
  end
  /\ prompts (snd (processDocument invoiceHost config.defaults
                     (Some sampleFile) sampleWorld))
     = prompts (snd (classifyText invoiceHost
                       (JStr "Invoice #123, Amount: $500") sampleWorld)).
Proof.
  apply (flows_agree invoiceHost config.defaults sampleFile
           "Invoice #123, Amount: $500" sampleWorld);
    vm_compute; reflexivity.
Defined.

(** ** The services behind their middlewares *)

Lemma sanitized_department (result : Obj) (c : Classification) :
  validateClassificationResult result = Return c ->
  In (department c) config.departments.values.
Proof.
  intros H.
  destruct (validateClassificationResult_inv result c H)
    as (x & y & _ & Hdp & _).
  apply (enumField_member _ _ _ _ _ GENERAL_is_configured Hdp).
Qed.

Lemma getRoutingRecommendation_configured (department : string)
      (confidence : float) :
  In department config.departments.values ->
  exists name,
    In name displayNames
    /\ getRoutingRecommendation department confidence
       = recommendation name confidence.
Proof.
  intros H.
  destruct (getRoutingRecommendation_names confidence)
    as (H1 & H2 & H3 & H4 & H5 & _).
  cbv zeta in H1, H2, H3, H4, H5.
  unfold displayNames, departmentNames. cbn [map snd].
  destruct H as [<- | [<- | [<- | [<- | [<- | []]]]]].
  - exists "Finance Department". split; [cbn; tauto | exact H1].
  - exists "Procurement Department". split; [cbn; tauto | exact H2].
  - exists "Legal Department". split; [cbn; tauto | exact H3].
  - exists "Operations Department". split; [cbn; tauto | exact H4].
  - exists "General Administration". split; [cbn; tauto | exact H5].
Qed.

Lemma getConfidenceLevel_values (confidence : float) :
  In (getConfidenceLevel confidence) ["high"; "medium"; "low"].
Proof.
  unfold getConfidenceLevel.
  destruct (_ <=? confidence)%float; [cbn; tauto |].
  destruct (_ <=? confidence)%float; cbn; tauto.
Qed.

(** What either flow returns was built from a sanitized classification. *)
Lemma flow_result_sanitized (host : Host) (env : config.Env)
      (textContent : JSValue) (file : option File) (w : World)
      (r : ClassificationResult) :
  fst (classifyText host textContent w) = Return r
  \/ fst (processDocument host env file w) = Return r ->
  exists result c meta,
    validateClassificationResult result = Return c
    /\ r = buildClassificationResult c meta.
Proof.
  intros [H | H].
  - rewrite classifyText_table in H.
    destruct (negb (ToBoolean textContent) || negb (isString textContent));
      [discriminate |].
    destruct textContent as [| | | | text | |]; try discriminate.
    destruct (String.length (trim text) =? 0)%nat eqn:Hb; [discriminate |].
    apply Nat.eqb_neq in Hb.
    assert (Hne : textToClassify text <> "")
      by apply textToClassify_not_empty, not_blank_not_empty, Hb.
    cbn [fst] in H.
    destruct (classifyDocument_outcome host _ w Hne)
      as [Ho | (o & c & Hv & Ho)]; rewrite Ho in H; [discriminate |].
    injection H as <-. eauto.
  - destruct file as [file |]; [| discriminate].
    rewrite processDocument_table in H.
    destruct (uploadRejection env file); [discriminate |].
    destruct (extractionTable host (path file) (mimetype file) w)
      as [text | e] eqn:Hx; [| discriminate].
    pose proof (isBlank_false _ (extractionTable_not_blank _ _ _ _ _ Hx))
      as Hne.
    cbn [fst] in H.
    destruct (classifyDocument_outcome host _ w Hne)
      as [Ho | (o & c & Hv & Ho)]; rewrite Ho in H; [discriminate |].
    injection H as <-. eauto.
Qed.

(** X17: a result of either flow names one of the five departments by its
    display name, in the message of the band of its routing confidence,
    and has one of the three levels: the department of a classification
    that went through the sanitizer is a configured one, so the names
    that the table of display names inherits are out of reach. *)
Theorem flow_result_names_a_department (host : Host) (env : config.Env)
        (textContent : JSValue) (file : option File) (w : World)
        (r : ClassificationResult) :
  fst (classifyText host textContent w) = Return r
  \/ fst (processDocument host env file w) = Return r ->
  (exists name,
     In name displayNames
     /\ routingRecommendation r
        = recommendation name (routingConfidence (classification r)))
  /\ confidenceLevel r = getConfidenceLevel (confidence (classification r))
  /\ In (confidenceLevel r) ["high"; "medium"; "low"].
Proof.
  intros H.
  destruct (flow_result_sanitized host env textContent file w r H)
    as (o & c & meta & Hv & ->).
  cbn [routingRecommendation classification confidenceLevel
       buildClassificationResult].
  split; [| split].
  - apply getRoutingRecommendation_configured, (sanitized_department o c Hv).
  - reflexivity.
  - apply getConfidenceLevel_values.
Qed.

Lemma flow_result_names_a_department_witness :
  exists r,
    fst (classifyText invoiceHost (JStr "Invoice #123, Amount: $500")
           sampleWorld) = Return r
    /\ (exists name,
          In name displayNames
          /\ routingRecommendation r
             = recommendation name (routingConfidence (classification r)))
    /\ confidenceLevel r = getConfidenceLevel (confidence (classification r))
    /\ In (confidenceLevel r) ["high"; "medium"; "low"].
Proof.
  eexists. split; [vm_compute; reflexivity |].
  match goal with
  | |- (exists name, _ /\ routingRecommendation ?r = _) /\ _ =>
      apply (flow_result_names_a_department invoiceHost config.defaults
               (JStr "Invoice #123, Amount: $500") None sampleWorld r
               (or_introl eq_refl))
  end.
Defined.

(** X18: the middleware of the text route and the text flow draw the same
    line: a content the middleware passes on is a string for which the
    flow sends its one prompt, so that the flow fails on nothing but the
    classification; a content the middleware answers, it answers with
    status 400, and the flow would throw status 400 for it without
    sending a prompt. *)
Theorem validateTextContent_agrees_with_classifyText (host : Host)
        (content : JSValue) (w : World) :
  match validationMiddleware.validateTextContent content with
  | validationMiddleware.Next =>
      exists text,
        content = JStr text
        /\ snd (classifyText host content w)
           = logPrompt (classificationPrompt ++ textToClassify text) w
        /\ (fst (classifyText host content w)
            = Throw ClassificationUnavailable
            \/ exists r, fst (classifyText host content w) = Return r)
  | validationMiddleware.Respond status _ =>
      status = 400%Z
      /\ snd (classifyText host content w) = w
      /\ exists message,
           fst (classifyText host content w) = Throw (ApiError 400 message)
  end.
Proof.
  rewrite classifyText_table.
  unfold validationMiddleware.validateTextContent.
  destruct (ToBoolean content) eqn:Ht; cbn [negb orb].
  2: { repeat split. eexists. reflexivity. }
  destruct (isString content) eqn:Hs; cbn [negb].
  2: { repeat split. eexists. reflexivity. }
  destruct content as [| | | | text | |]; try discriminate.
  destruct (String.length (trim text) =? 0)%nat eqn:Hb.
  { repeat split. eexists. reflexivity. }
  apply Nat.eqb_neq in Hb.
  assert (Hne : textToClassify text <> "")
    by apply textToClassify_not_empty, not_blank_not_empty, Hb.
  exists text. cbn [fst snd]. split; [reflexivity | split; [reflexivity |]].
  destruct (classifyDocument_outcome host _ w Hne)
    as [-> | (o & c & _ & ->)]; eauto.
Qed.

(** X19: an upload that the middleware of the file route passes on is not
    empty, is within the size limit, and has an allowed kind and, case
    apart, a supported extension; the file flow does not refuse it: what
    the flow gives is what extraction and then the gateway give. *)
Theorem validated_upload_is_processed (extname : string -> string)
        (host : Host) (env : config.Env) (file : File) (w : World) :
  uploadValidation.validateFileUpload extname env (Some file)
  = validationMiddleware.Next ->
  (size file <> 0 /\ size file <= config.maxFileSize env)%Z
  /\ includes (config.allowedFileTypes env) (mimetype file) = true
  /\ includes uploadValidation.supportedExtensions
       (toLowerCase (extname (originalname file))) = true
  /\ fst (processDocument host env (Some file) w)
     = match fst (extractTextFromFile host (path file) (mimetype file) w) with
       | Throw e => Throw e
       | Return text =>
           match fst (classifyDocument host
                        (JStr (textToClassify text)) w) with
           | Return c =>
               Return (buildClassificationResult c (fileMetadata host file))
           | Throw e => Throw e
           end
       end.
Proof.
  unfold uploadValidation.validateFileUpload.
  destruct (config.maxFileSize env <? size file)%Z eqn:Hsize; [discriminate |].
  destruct (includes (config.allowedFileTypes env) (mimetype file)) eqn:Htype;
    cbn [negb]; [| discriminate].
  destruct (includes uploadValidation.supportedExtensions _) eqn:Hext;
    cbn [negb]; [| discriminate].
  destruct (size file =? 0)%Z eqn:Hzero; [discriminate |]. intros _.
  apply Z.ltb_ge in Hsize. apply Z.eqb_neq in Hzero.
  split; [split; assumption | split; [reflexivity | split; [reflexivity |]]].
  rewrite processDocument_table, extractTextFromFile_table.
  unfold uploadRejection.
  apply Z.ltb_ge in Hsize. rewrite Hsize, Htype. cbn [negb fst].
  destruct (extractionTable host (path file) (mimetype file) w); reflexivity.
Qed.

Lemma validated_upload_is_processed_witness :
  (size sampleFile <> 0
   /\ size sampleFile <= config.maxFileSize config.defaults)%Z
  /\ includes (config.allowedFileTypes config.defaults) (mimetype sampleFile)
     = true
  /\ includes uploadValidation.supportedExtensions
       (toLowerCase (fromLastDot (originalname sampleFile))) = true
  /\ fst (processDocument invoiceHost config.defaults (Some sampleFile)
            sampleWorld)
     = match fst (extractTextFromFile invoiceHost (path sampleFile)
                    (mimetype sampleFile) sampleWorld) with
       | Throw e => Throw e
       | Return text =>
           match fst (classifyDocument invoiceHost
                        (JStr (textToClassify text)) sampleWorld) with
           | Return c =>
               Return (buildClassificationResult c
                         (fileMetadata invoiceHost sampleFile))
           | Throw e => Throw e
           end
       end.
Proof.
  apply (validated_upload_is_processed fromLastDot invoiceHost config.defaults
           sampleFile sampleWorld).
  vm_compute. reflexivity.
Defined.

(** ** The cap on the text *)

Lemma substring0_app (n : nat) (a b : string) :
  String.length a = n -> substring0 n (a ++ b) = a.
Proof.
  revert n. induction a as [| c r IH]; intros n H; cbn [String.length] in H;
    subst n; cbn [append substring0].
  - destruct b; reflexivity.
  - rewrite (IH _ eq_refl). reflexivity.
Qed.

(** X20: capping a text twice is capping it once; what is sent for a text
    is never longer than the cap and the marker together, and it begins
    as the text does, up to the cap. *)
Theorem textToClassify_idempotent (text : string) :
  textToClassify (textToClassify text) = textToClassify text
  /\ String.length (textToClassify text)
     <= maxTextLength + String.length truncationMarker
  /\ substring0 maxTextLength (textToClassify text)
     = substring0 maxTextLength text.
Proof.
  unfold textToClassify. generalize maxTextLength. intros n.
  destruct (n <? String.length text)%nat eqn:Hlong.
  - apply Nat.ltb_lt in Hlong.
    assert (Hlen : String.length (substring0 n text) = n)
      by (apply length_substring0; lia).
    assert (Hcut : (n <? String.length (substring0 n text ++ truncationMarker))%nat
                   = true).
    { apply Nat.ltb_lt. rewrite length_append, Hlen.
      change (String.length truncationMarker) with 15. lia. }
    rewrite Hcut, (substring0_app n _ _ Hlen), length_append, Hlen.
    repeat split. lia.
  - rewrite Hlong. apply Nat.ltb_ge in Hlong. repeat split. lia.
Qed.

(** ** The bands of the advisor *)

Lemma SFleb_trans_from_positive (m : positive) (e : Z) (x y : spec_float) :
  SFleb (S754_finite false m e) x = true ->
  SFleb x y = true ->
  SFleb (S754_finite false m e) y = true.
Proof.
  unfold SFleb, SFcompare.
  destruct x as [[|] | [|] | | [|] mx ex]; try discriminate;
    destruct y as [[|] | [|] | | [|] my ey];
    try discriminate; try reflexivity.
  destruct (Z.compare_spec e ex) as [He | He | He];
    destruct (Z.compare_spec ex ey) as [Hy | Hy | Hy];
    destruct (Z.compare_spec e ey) as [Hz | Hz | Hz];
    try discriminate; try reflexivity; try lia.
  subst.
  change (Pos.compare_cont Eq m mx) with (Pos.compare m mx).
  change (Pos.compare_cont Eq mx my) with (Pos.compare mx my).
  change (Pos.compare_cont Eq m my) with (Pos.compare m my).
  destruct (Pos.compare_spec m mx); destruct (Pos.compare_spec mx my);
    destruct (Pos.compare_spec m my);
    try discriminate; try reflexivity; try lia.
Qed.

Lemma threshold_is_positive :
  (exists m e, Prim2SF config.confidenceLevels.HIGH = S754_finite false m e)
  /\ (exists m e,
        Prim2SF config.confidenceLevels.MEDIUM = S754_finite false m e).
Proof. split; eexists; eexists; vm_compute; reflexivity. Qed.

Lemma leb_trans_from_positive (c x y : float) :
  (exists m e, Prim2SF c = S754_finite false m e) ->
  (c <=? x)%float = true -> (x <=? y)%float = true -> (c <=? y)%float = true.
Proof.
  intros (m & e & Hc). rewrite !leb_spec, Hc.
  apply SFleb_trans_from_positive.
Qed.

(** X21: the level grows with the confidence: of two Numbers, the one that
    is not less than the other has a level that is not lower. *)
Theorem getConfidenceLevel_monotone (x y : float) :
  (x <=? y)%float = true ->
  levelRank (getConfidenceLevel x) <= levelRank (getConfidenceLevel y).
Proof.
  intros Hxy. destruct threshold_is_positive as [Hhigh Hmedium].
  unfold getConfidenceLevel.
  destruct (config.confidenceLevels.HIGH <=? x)%float eqn:Hx.
  { rewrite (leb_trans_from_positive _ x y Hhigh Hx Hxy). reflexivity. }
  destruct (config.confidenceLevels.MEDIUM <=? x)%float eqn:Hm.
  { rewrite (leb_trans_from_positive _ x y Hmedium Hm Hxy).
    destruct (config.confidenceLevels.HIGH <=? y)%float;
      unfold levelRank; cbn; lia. }
  unfold levelRank at 1. cbn. lia.
Qed.

Lemma getConfidenceLevel_monotone_witness :
  levelRank (getConfidenceLevel 0.61) <= levelRank (getConfidenceLevel 0.93).
Proof.
  apply (getConfidenceLevel_monotone 0.61 0.93). vm_compute. reflexivity.
Defined.

(** ** The health check *)

Lemma startsWith_spec (p s : string) :
  startsWith p s = true <-> exists after, s = p ++ after.
Proof.
  revert s. induction p as [| a p IH]; intros s; cbn [startsWith append].
  - split; [intros _; exists s; reflexivity | reflexivity].
  - destruct s as [| b s].
    + split; [discriminate | intros [after [=]]].
    + rewrite andb_true_iff, IH. split.
      * intros [Hab [after ->]]. apply Ascii.eqb_eq in Hab as ->.
        exists after. reflexivity.
      * intros [after [= -> ->]]. split; [apply Ascii.eqb_refl | eauto].
Qed.

Lemma stringIncludes_spec (needle hay : string) :
  healthCheck.stringIncludes needle hay = true
  <-> exists before after, hay = before ++ needle ++ after.
Proof.
  induction hay as [| c r IH]; cbn [healthCheck.stringIncludes].
  - rewrite orb_false_r, startsWith_spec. split.
    + intros [after H]. exists "", after. exact H.
    + intros (before & after & H). destruct before as [| b before].
      * exists after. exact H.
      * discriminate.
  - rewrite orb_true_iff, startsWith_spec, IH. split.
    + intros [[after H] | (before & after & ->)].
      * exists "", after. exact H.
      * exists (String c before), after. reflexivity.
    + intros (before & after & H). destruct before as [| b before].
      * left. exists after. exact H.
      * right. injection H as _ ->. eauto.
Qed.

(** X22: the health check never throws.  It sends the one fixed prompt and
    returns [true] exactly when the model replies and the phrase
    "Connection successful" occurs in the reply, in that spelling; a
    failed call gives [false]. *)
Theorem testConnection_never_throws (host : Host) (w : World) :
  exists ok,
    healthCheck.testConnection host w
    = (Return ok, logPrompt healthCheck.connectionPrompt w)
    /\ (ok = true
        <-> exists before after,
              generateContent host healthCheck.connectionPrompt
              = Replied (before ++ "Connection successful" ++ after)).
Proof.
  unfold healthCheck.testConnection, tryCatch, bind, generate, logPrompt.
  destruct (generateContent host healthCheck.connectionPrompt)
    as [text | reason].
  - exists (healthCheck.stringIncludes "Connection successful" text).
    split; [reflexivity |].
    rewrite stringIncludes_spec. split.
    + intros (before & after & ->). exists before, after. reflexivity.
    + intros (before & after & [= ->]). exists before, after. reflexivity.
  - exists false. split; [reflexivity |]. split; [discriminate |].
    intros (before & after & [=]).
Qed.
